(** * MambaOut (timm/models/mambaout.py): a shallow embedding

    The architecture definition of [mambaout.py] is embedded as follows.

    - Python integers are [Z]; Python floats used as ratios and rates
      ([expansion_ratio], [conv_ratio], [drop_path_rate]) are rationals
      [Q] with exact arithmetic, and [int(...)] is truncation toward
      zero.
    - A module object ([nn.Conv2d], [nn.Linear], a norm layer, ...) is the
      record of the hyper-parameters its constructor received; learned
      weights are not represented.
    - A constructor or a forward pass that can raise returns in the error
      monad [result].
    - [forward] methods are written once, over an interface [TensorOps] of
      the tensor primitives they call.  The instance [ShapeOps] interprets
      a tensor by its shape (a list of extents), with the shape checks the
      primitives perform. *)

From Stdlib Require Import String ZArith QArith Qround Qabs List Bool Lia.
Import ListNotations.
Open Scope Z_scope.

(** ** Errors and the error monad *)

Inductive PyError : Set :=
| AssertionError
| ValueError
| RuntimeError
| IndexError.

Inductive result (A : Type) : Type :=
| Ok (a : A)
| Err (e : PyError).
Arguments Ok {A} a.
Arguments Err {A} e.

Definition bind {A B : Type} (m : result A) (k : A -> result B) : result B :=
  match m with
  | Ok a => k a
  | Err e => Err e
  end.

Notation "x <- m ;; k" := (bind m (fun x => k))
  (at level 61, m at next level, right associativity).

Definition is_ok {A : Type} (m : result A) : bool :=
  match m with Ok _ => true | Err _ => false end.

(** [mapM f l]: a list comprehension whose body may raise. *)
Fixpoint mapM {A B : Type} (f : A -> result B) (l : list A) : result (list B) :=
  match l with
  | [] => Ok []
  | a :: l' => b <- f a;; bs <- mapM f l';; Ok (b :: bs)
  end.

(** ** Python numerics *)

(** [int(x)] on a float: truncation toward zero. *)
Definition py_int (x : Q) : Z := Z.quot (Qnum x) (Z.pos (Qden x)).

(** [ratio * dim] with a float ratio and an integer dim. *)
Definition q_times (ratio : Q) (dim : Z) : Q := (ratio * inject_Z dim)%Q.


(** [a > b] on floats *)
Definition Qgt_bool (a b : Q) : bool := negb (Qle_bool a b).

(** [a or b] on integers: [None] and [0] are falsy. *)
Definition py_or (a : option Z) (b : Z) : Z :=
  match a with
  | None => b
  | Some 0 => b
  | Some a' => a'
  end.

(** An argument that is either one value or a list or tuple of them
    ([isinstance(x, (list, tuple))]). *)
Inductive ScalarOrSeq (A : Type) : Type :=
| Scalar (a : A)
| Sequence (l : list A).
Arguments Scalar {A} a.
Arguments Sequence {A} l.

(** [sum(l)] *)
Definition py_sum (l : list Z) : Z := fold_right Z.add 0 l.

(** [l[i]] for [i >= 0] *)
Definition py_index {A : Type} (l : list A) (i : nat) : result A :=
  match nth_error l i with
  | Some a => Ok a
  | None => Err IndexError
  end.

(** ** torch primitives on one-dimensional data *)

(** [Tensor.split(sizes)] / [torch.split(x, sizes)] along one axis, the
    axis being given as the list of its entries: every size must be
    non-negative and the sizes must add up to the extent of the axis. *)
Fixpoint split_chunks {A : Type} (sizes : list Z) (l : list A) : list (list A) :=
  match sizes with
  | [] => []
  | s :: sizes' => firstn (Z.to_nat s) l :: split_chunks sizes' (skipn (Z.to_nat s) l)
  end.

Definition torch_split {A : Type} (l : list A) (sizes : list Z) : result (list (list A)) :=
  if forallb (fun s => 0 <=? s) sizes && (py_sum sizes =? Z.of_nat (length l))
  then Ok (split_chunks sizes l)
  else Err RuntimeError.

(** [torch.linspace(start, end, steps).tolist()]: [steps] evenly spaced
    values; one step gives [start] alone. *)
Definition linspace_at (start stop : Q) (steps : nat) (i : nat) : Q :=
  (start + inject_Z (Z.of_nat i) * ((stop - start) / inject_Z (Z.of_nat steps - 1)))%Q.

Definition torch_linspace (start stop : Q) (steps : Z) : result (list Q) :=
  if steps <? 0 then Err RuntimeError
  else if steps =? 1 then Ok [start]
  else Ok (map (linspace_at start stop (Z.to_nat steps)) (seq 0 (Z.to_nat steps))).

(** ** Layer objects: the arguments their constructors keep *)

(** A normalisation class ([norm_layer], [output_norm]) and an activation
    class ([act_layer]) are passed by reference; only their name is kept. *)
Definition LayerCls := string.

(** [timm.models.layers.LayerNorm] and [nn.GELU], the defaults. *)
Definition LayerNorm : LayerCls := "LayerNorm"%string.
Definition GELU : LayerCls := "GELU"%string.

Record Norm : Set := mkNorm {
  norm_cls : LayerCls;
  normalized_shape : Z }.

Record Act : Set := mkAct { act_cls : LayerCls }.

Record Conv2d : Set := mkConv2d {
  in_channels : Z;
  out_channels : Z;
  conv_kernel_size : Z;
  conv_stride : Z;
  conv_padding : Z;
  conv_groups : Z }.

Record Linear : Set := mkLinear {
  in_features : Z;
  out_features : Z }.

Record LayerScale : Set := mkLayerScale {
  ls_dim : Z;
  ls_init_values : option Q }.

Record DropPath : Set := mkDropPath { drop_prob : Q }.

Record Dropout : Set := mkDropout { dropout_p : Q }.

(** [nn.Identity()] standing where a module is optional. *)
Inductive OrIdentity (M : Type) : Type :=
| Module_ (m : M)
| Identity.
Arguments Module_ {M} m.
Arguments Identity {M}.

(** [norm_layer(d)]: the affine parameters have [d] entries. *)
Definition norm_layer_new (cls : LayerCls) (d : Z) : result Norm :=
  if d <? 0 then Err RuntimeError else Ok (mkNorm cls d).

(** [nn.Conv2d(in, out, kernel_size, stride, padding, groups)]: the group
    count must be positive and divide both channel counts; the weight has
    [out x in/groups x k x k] entries. *)
Definition nn_Conv2d (cin cout k s p g : Z) : result Conv2d :=
  if g <=? 0 then Err ValueError
  else if negb (cin mod g =? 0) then Err ValueError
  else if negb (cout mod g =? 0) then Err ValueError
  else if (cin <? 0) || (cout <? 0) || (k <? 0) then Err RuntimeError
  else Ok (mkConv2d cin cout k s p g).

(** [nn.Linear(in, out)] *)
Definition nn_Linear (fin fout : Z) : result Linear :=
  if (fin <? 0) || (fout <? 0) then Err RuntimeError else Ok (mkLinear fin fout).

(** [LayerScale(dim)], imported from [.vision_transformer]: called with
    the dimension alone, so the initial value is the one [LayerScale]
    itself defaults to ([ls_init_values = None]: argument not passed). *)
Definition LayerScale_new (dim : Z) (init_values : option Q) : result LayerScale :=
  if dim <? 0 then Err RuntimeError else Ok (mkLayerScale dim init_values).

(** ** The tensor primitives the forward passes call *)

Class TensorOps (T : Type) : Type := {
  (** [conv(x)], [x] channel-first *)
  conv2d : Conv2d -> T -> result T;
  (** [norm(x)], over the last axis *)
  norm_apply : Norm -> T -> result T;
  (** [fc(x)], over the last axis *)
  linear : Linear -> T -> result T;
  (** [act(x)], pointwise *)
  act_apply : Act -> T -> result T;
  (** [x.permute(d0, d1, d2, d3)] *)
  permute : list nat -> T -> result T;
  (** [torch.split(x, sizes, dim=-1)] *)
  split_last : T -> list Z -> result (list T);
  (** [torch.cat(xs, dim=-1)] *)
  cat_last : list T -> result T;
  (** [a * b] *)
  mul : T -> T -> result T;
  (** [a + b] *)
  add : T -> T -> result T;
  (** [ls(x)], a per-channel rescaling *)
  layer_scale : LayerScale -> T -> result T;
  (** [drop_path(x)], stochastic in training mode *)
  drop_path_apply : DropPath -> T -> result T;
  (** [head_dropout(x)] *)
  dropout_apply : Dropout -> T -> result T;
  (** [x.mean((1, 2))] *)
  mean_1_2 : T -> result T }.

(** Calling a module that may be [nn.Identity()]. *)
Definition call_or_identity {M T : Type} (f : M -> T -> result T)
  (m : OrIdentity M) (x : T) : result T :=
  match m with
  | Module_ m' => f m' x
  | Identity => Ok x
  end.

(** ** class Stem *)

Module Stem.
Record t : Set := mk {
  conv1 : Conv2d;
  norm1 : option Norm;
  act : Act;
  conv2 : Conv2d;
  norm2 : Norm }.

Definition __init__ (in_chs out_chs : Z) (mid_norm : bool)
  (act_layer norm_layer : LayerCls) : result t :=
  conv1 <- nn_Conv2d in_chs (out_chs / 2) 3 2 1 1;;
  norm1 <- (if mid_norm
            then n <- norm_layer_new norm_layer (out_chs / 2);; Ok (Some n)
            else Ok None);;
  let act := mkAct act_layer in
  conv2 <- nn_Conv2d (out_chs / 2) out_chs 3 2 1 1;;
  norm2 <- norm_layer_new norm_layer out_chs;;
  Ok (mk conv1 norm1 act conv2 norm2).

(** The default of the keyword argument [mid_norm]. *)
Definition mid_norm_default : bool := true.

Definition forward {T : Type} `{TensorOps T} (self : t) (x : T) : result T :=
  x <- conv2d (conv1 self) x;;
  x <- match norm1 self with
       | Some n =>
           x <- permute [0; 2; 3; 1]%nat x;;
           x <- norm_apply n x;;
           permute [0; 3; 1; 2]%nat x
       | None => Ok x
       end;;
  x <- act_apply (act self) x;;
  x <- conv2d (conv2 self) x;;
  x <- permute [0; 2; 3; 1]%nat x;;
  norm_apply (norm2 self) x.
End Stem.

(** ** class DownsampleNormFirst *)

Module DownsampleNormFirst.
Record t : Set := mk {
  norm : Norm;
  conv : Conv2d }.

Definition __init__ (in_chs out_chs : Z) (norm_layer : LayerCls) : result t :=
  norm <- norm_layer_new norm_layer in_chs;;
  conv <- nn_Conv2d in_chs out_chs 3 2 1 1;;
  Ok (mk norm conv).

Definition forward {T : Type} `{TensorOps T} (self : t) (x : T) : result T :=
  x <- norm_apply (norm self) x;;
  x <- permute [0; 3; 1; 2]%nat x;;
  x <- conv2d (conv self) x;;
  permute [0; 2; 3; 1]%nat x.
End DownsampleNormFirst.

(** ** class Downsample *)

Module Downsample.
Record t : Set := mk {
  conv : Conv2d;
  norm : Norm }.

Definition __init__ (in_chs out_chs : Z) (norm_layer : LayerCls) : result t :=
  conv <- nn_Conv2d in_chs out_chs 3 2 1 1;;
  norm <- norm_layer_new norm_layer out_chs;;
  Ok (mk conv norm).

Definition forward {T : Type} `{TensorOps T} (self : t) (x : T) : result T :=
  x <- permute [0; 3; 1; 2]%nat x;;
  x <- conv2d (conv self) x;;
  x <- permute [0; 2; 3; 1]%nat x;;
  norm_apply (norm self) x.
End Downsample.

(** ** class MlpHead *)

Module MlpHead.
Record t : Set := mk {
  fc1 : Linear;
  act : Act;
  norm : Norm;
  fc2 : Linear;
  head_dropout : Dropout }.

Definition __init__ (dim num_classes : Z) (act_layer : LayerCls) (mlp_ratio : Q)
  (norm_layer : LayerCls) (drop_rate : Q) : result t :=
  let hidden_features := py_int (q_times mlp_ratio dim) in
  fc1 <- nn_Linear dim hidden_features;;
  let act := mkAct act_layer in
  norm <- norm_layer_new norm_layer hidden_features;;
  fc2 <- nn_Linear hidden_features num_classes;;
  Ok (mk fc1 act norm fc2 (mkDropout drop_rate)).

Definition forward {T : Type} `{TensorOps T} (self : t) (x : T) : result T :=
  x <- linear (fc1 self) x;;
  x <- act_apply (act self) x;;
  x <- norm_apply (norm self) x;;
  x <- dropout_apply (head_dropout self) x;;
  linear (fc2 self) x.
End MlpHead.

(** ** class GatedConvBlock *)

Module GatedConvBlock.
Record t : Set := mk {
  norm : Norm;
  fc1 : Linear;
  act : Act;
  split_indices : list Z;
  conv : Conv2d;
  fc2 : Linear;
  ls : OrIdentity LayerScale;
  drop_path : OrIdentity DropPath }.

(** The two widths [__init__] computes. *)
Definition hidden_of (expansion_ratio : Q) (dim : Z) : Z :=
  py_int (q_times expansion_ratio dim).

Definition conv_channels_of (conv_ratio : Q) (dim : Z) : Z :=
  py_int (q_times conv_ratio dim).

Definition __init__ (dim : Z) (expansion_ratio : Q) (kernel_size : Z)
  (conv_ratio : Q) (ls_init_value : option Q)
  (norm_layer act_layer : LayerCls) (drop_path : Q) : result t :=
  norm <- norm_layer_new norm_layer dim;;
  let hidden := hidden_of expansion_ratio dim in
  fc1 <- nn_Linear dim (hidden * 2);;
  let act := mkAct act_layer in
  let conv_channels := conv_channels_of conv_ratio dim in
  let split_indices := [hidden; hidden - conv_channels; conv_channels] in
  conv <- nn_Conv2d conv_channels conv_channels kernel_size 1 (kernel_size / 2)
            conv_channels;;
  fc2 <- nn_Linear hidden dim;;
  ls <- match ls_init_value with
        | Some _ => l <- LayerScale_new dim None;; Ok (Module_ l)
        | None => Ok Identity
        end;;
  let drop_path := if Qgt_bool drop_path 0
                   then Module_ (mkDropPath drop_path) else Identity in
  Ok (mk norm fc1 act split_indices conv fc2 ls drop_path).

Definition forward {T : Type} `{TensorOps T} (self : t) (x : T) : result T :=
  let shortcut := x in
  x <- norm_apply (norm self) x;;
  x <- linear (fc1 self) x;;
  gic <- split_last x (split_indices self);;
  match gic with
  | [g; i; c] =>
      c <- permute [0; 3; 1; 2]%nat c;;
      c <- conv2d (conv self) c;;
      c <- permute [0; 2; 3; 1]%nat c;;
      g' <- act_apply (act self) g;;
      ic <- cat_last [i; c];;
      x <- mul g' ic;;
      x <- linear (fc2 self) x;;
      x <- call_or_identity layer_scale (ls self) x;;
      x <- call_or_identity drop_path_apply (drop_path self) x;;
      add x shortcut
  | _ => Err ValueError
  end.
End GatedConvBlock.

(** [nn.Sequential] of the modules [ms], called on [x] *)
Fixpoint Sequential_forward {M T : Type} (f : M -> T -> result T)
  (ms : list M) (x : T) : result T :=
  match ms with
  | [] => Ok x
  | m :: ms' => x' <- f m x;; Sequential_forward f ms' x'
  end.

(** Modelled from the spec: [checkpoint_seq] is imported from
    [._manipulate]; it evaluates the block sequence with recomputation in
    the backward pass, "a pure performance/memory trade-off with no change
    in output values". *)
Definition checkpoint_seq {M T : Type} (f : M -> T -> result T)
  (ms : list M) (x : T) : result T :=
  Sequential_forward f ms x.

(** The float [8 / 3], the default [expansion_ratio].  For a positive
    integer [dim] the float product [8 / 3 * dim] truncates to the same
    integer as the exact one. *)
Definition expansion_ratio_default : Q := 8 # 3.

(** What the attribute [downsample] of a stage can hold: an object of
    one of the two downsampling classes of the file, or [nn.Identity()]. *)
Inductive DownsampleModule : Set :=
| ConvThenNorm (d : Downsample.t)
| NormFirst (d : DownsampleNormFirst.t)
| NoDownsample.

Definition DownsampleModule_forward {T : Type} `{TensorOps T}
  (m : DownsampleModule) (x : T) : result T :=
  match m with
  | ConvThenNorm d => Downsample.forward d x
  | NormFirst d => DownsampleNormFirst.forward d x
  | NoDownsample => Ok x
  end.

(** ** class MambaOutStage *)

Module MambaOutStage.
Record t : Set := mk {
  grad_checkpointing : bool;
  downsample : DownsampleModule;
  blocks : list GatedConvBlock.t }.

(** The comprehension [[GatedConvBlock(...) for j in range(depth)]]. *)
Definition build_blocks (dim_out depth : Z) (expansion_ratio : Q)
  (kernel_size : Z) (conv_ratio : Q) (ls_init_value : option Q)
  (norm_layer act_layer : LayerCls) (drop_path : ScalarOrSeq Q)
  : result (list GatedConvBlock.t) :=
  mapM (fun j =>
          dp <- match drop_path with
                | Sequence l => py_index l j
                | Scalar r => Ok r
                end;;
          GatedConvBlock.__init__ dim_out expansion_ratio kernel_size
            conv_ratio ls_init_value norm_layer act_layer dp)
       (seq 0 (Z.to_nat depth)).

Definition __init__ (dim : Z) (dim_out : option Z) (depth : Z)
  (expansion_ratio : Q) (kernel_size : Z) (conv_ratio : Q) (downsample : bool)
  (ls_init_value : option Q) (norm_layer act_layer : LayerCls)
  (drop_path : ScalarOrSeq Q) : result t :=
  let dim_out := py_or dim_out dim in
  let grad_checkpointing := false in
  downsample <- (if downsample
                 then d <- Downsample.__init__ dim dim_out norm_layer;;
                      Ok (ConvThenNorm d)
                 else if dim =? dim_out then Ok NoDownsample
                      else Err AssertionError);;
  blocks <- build_blocks dim_out depth expansion_ratio kernel_size conv_ratio
              ls_init_value norm_layer act_layer drop_path;;
  Ok (mk grad_checkpointing downsample blocks).

(** [torch.jit.is_scripting()] is a property of the caller. *)
Definition forward_in {T : Type} `{TensorOps T} (is_scripting : bool)
  (self : t) (x : T) : result T :=
  x <- DownsampleModule_forward (downsample self) x;;
  if grad_checkpointing self && negb is_scripting
  then checkpoint_seq GatedConvBlock.forward (blocks self) x
  else Sequential_forward GatedConvBlock.forward (blocks self) x.

Definition forward {T : Type} `{TensorOps T} (self : t) (x : T) : result T :=
  forward_in false self x.
End MambaOutStage.

(** ** class MambaOut *)

(** A value of a keyword argument swallowed by [**kwargs]. *)
Inductive PyVal : Set :=
| PyNone
| PyBool (b : bool)
| PyInt (z : Z)
| PyStr (s : string).

Module MambaOut.
Record t : Set := mk {
  num_classes : Z;
  drop_rate : Q;
  num_stage : nat;
  stem : Stem.t;
  stages : list MambaOutStage.t;
  norm : Norm;
  head : MlpHead.t }.

(** The arguments of [MambaOut.__init__].  [head_fn] is kept at its
    default, [MlpHead]; the entries of [kwargs] are not read. *)
Module Args.
Record t : Type := mk {
  in_chans : Z;
  num_classes : Z;
  depths : ScalarOrSeq Z;
  dims : ScalarOrSeq Z;
  norm_layer : LayerCls;
  act_layer : LayerCls;
  conv_ratio : Q;
  kernel_size : Z;
  ls_init_value : option Q;
  drop_path_rate : Q;
  drop_rate : Q;
  output_norm : LayerCls;
  kwargs : list (string * PyVal) }.
End Args.

(** [if not isinstance(x, (list, tuple)): x = [x]] *)
Definition as_list {A : Type} (x : ScalarOrSeq A) : list A :=
  match x with
  | Scalar a => [a]
  | Sequence l => l
  end.

(** [[x.tolist() for x in torch.linspace(0, drop_path_rate, sum(depths)).split(depths)]] *)
Definition dp_rates_of (drop_path_rate : Q) (depths : list Z) : result (list (list Q)) :=
  flat <- torch_linspace 0 drop_path_rate (py_sum depths);;
  torch_split flat depths.

(** The loop [for i in range(num_stage)], threading [prev_dim]. *)
Fixpoint build_stages (a : Args.t) (depths dims : list Z) (dp_rates : list (list Q))
  (idxs : list nat) (prev_dim : Z) : result (list MambaOutStage.t * Z) :=
  match idxs with
  | [] => Ok ([], prev_dim)
  | i :: idxs' =>
      dim <- py_index dims i;;
      depth <- py_index depths i;;
      dp <- py_index dp_rates i;;
      stage <- MambaOutStage.__init__ prev_dim (Some dim) depth
                 expansion_ratio_default (Args.kernel_size a) (Args.conv_ratio a)
                 (0 <? Z.of_nat i) (Args.ls_init_value a) (Args.norm_layer a)
                 (Args.act_layer a) (Sequence dp);;
      rest <- build_stages a depths dims dp_rates idxs' dim;;
      Ok (stage :: fst rest, snd rest)
  end.

Definition __init__ (a : Args.t) : result t :=
  let depths := as_list (Args.depths a) in
  let dims := as_list (Args.dims a) in
  let num_stage := length depths in
  dims0 <- py_index dims 0;;
  stem <- Stem.__init__ (Args.in_chans a) dims0 Stem.mid_norm_default
            (Args.act_layer a) (Args.norm_layer a);;
  let prev_dim := dims0 in
  dp_rates <- dp_rates_of (Args.drop_path_rate a) depths;;
  built <- build_stages a depths dims dp_rates (seq 0 num_stage) prev_dim;;
  let prev_dim := snd built in
  norm <- norm_layer_new (Args.output_norm a) prev_dim;;
  head <- MlpHead.__init__ prev_dim (Args.num_classes a) GELU (4 # 1)
            LayerNorm (Args.drop_rate a);;
  Ok (mk (Args.num_classes a) (Args.drop_rate a) num_stage stem (fst built) norm head).

Definition forward_features {T : Type} `{TensorOps T} (self : t) (x : T) : result T :=
  x <- Stem.forward (stem self) x;;
  Sequential_forward MambaOutStage.forward (stages self) x.

Definition forward_head {T : Type} `{TensorOps T} (self : t) (x : T) : result T :=
  x <- mean_1_2 x;;
  x <- norm_apply (norm self) x;;
  MlpHead.forward (head self) x.

Definition forward {T : Type} `{TensorOps T} (self : t) (x : T) : result T :=
  x <- forward_features self x;;
  forward_head self x.
End MambaOut.

(** ** Tensors as shapes

    A tensor is interpreted by its shape; every primitive performs the
    shape checks of the torch operator and returns the shape of its
    result.  Feature maps have rank 4. *)

Definition Shape := list Z.

Definition shape_last (x : Shape) : Z := last x 0.

Definition with_last (x : Shape) (c : Z) : Shape := removelast x ++ [c].

(** Output extent of a convolution along one spatial axis. *)
Definition conv_out (n k s p : Z) : Z := (n + 2 * p - k) / s + 1.

Definition shape_conv2d (c : Conv2d) (x : Shape) : result Shape :=
  match x with
  | [b; ch; h; w] =>
      let k := conv_kernel_size c in
      let s := conv_stride c in
      let p := conv_padding c in
      if negb (ch =? in_channels c) then Err RuntimeError
      else if (k <=? 0) || (s <=? 0) || (p <? 0) then Err RuntimeError
      else if (h + 2 * p <? k) || (w + 2 * p <? k) then Err RuntimeError
      else Ok [b; out_channels c; conv_out h k s p; conv_out w k s p]
  | _ => Err RuntimeError
  end.

Definition shape_norm (n : Norm) (x : Shape) : result Shape :=
  match x with
  | [] => Err RuntimeError
  | _ => if shape_last x =? normalized_shape n then Ok x else Err RuntimeError
  end.

Definition shape_linear (l : Linear) (x : Shape) : result Shape :=
  match x with
  | [] => Err RuntimeError
  | _ => if shape_last x =? in_features l
         then Ok (with_last x (out_features l))
         else Err RuntimeError
  end.

Fixpoint nodupb (l : list nat) : bool :=
  match l with
  | [] => true
  | i :: l' => negb (existsb (Nat.eqb i) l') && nodupb l'
  end.

Definition shape_permute (perm : list nat) (x : Shape) : result Shape :=
  if (length perm =? length x)%nat
     && forallb (fun i => (i <? length x)%nat) perm
     && nodupb perm
  then Ok (map (fun i => nth i x 0) perm)
  else Err RuntimeError.

Definition shape_split_last (x : Shape) (sizes : list Z) : result (list Shape) :=
  match x with
  | [] => Err IndexError
  | _ => if forallb (fun s => 0 <=? s) sizes && (py_sum sizes =? shape_last x)
         then Ok (map (with_last x) sizes)
         else Err RuntimeError
  end.

Definition shape_eqb (x y : Shape) : bool :=
  (length x =? length y)%nat && forallb (fun p => fst p =? snd p) (combine x y).

Definition shape_cat_last (xs : list Shape) : result Shape :=
  match xs with
  | [] => Err RuntimeError
  | [] :: _ => Err RuntimeError
  | x :: xs' =>
      if forallb (fun y => negb (length y =? 0)%nat
                           && shape_eqb (removelast y) (removelast x)) xs'
      then Ok (with_last x (py_sum (map shape_last xs)))
      else Err RuntimeError
  end.

(** Broadcasting of two shapes, from the trailing axis. *)
Fixpoint broadcast_rev (a b : Shape) : result Shape :=
  match a, b with
  | [], _ => Ok b
  | _, [] => Ok a
  | m :: a', n :: b' =>
      r <- broadcast_rev a' b';;
      if m =? n then Ok (m :: r)
      else if m =? 1 then Ok (n :: r)
      else if n =? 1 then Ok (m :: r)
      else Err RuntimeError
  end.

Definition broadcast (a b : Shape) : result Shape :=
  r <- broadcast_rev (rev a) (rev b);; Ok (rev r).

Definition shape_mean_1_2 (x : Shape) : result Shape :=
  match x with
  | b :: _ :: _ :: rest => Ok (b :: rest)
  | _ => Err IndexError
  end.

#[export] Instance ShapeOps : TensorOps Shape := {
  conv2d := shape_conv2d;
  norm_apply := shape_norm;
  linear := shape_linear;
  act_apply := fun _ x => Ok x;
  permute := shape_permute;
  split_last := shape_split_last;
  cat_last := shape_cat_last;
  mul := broadcast;
  add := broadcast;
  layer_scale := fun l x => broadcast x [ls_dim l];
  drop_path_apply := fun _ x => Ok x;
  dropout_apply := fun _ x => Ok x;
  mean_1_2 := shape_mean_1_2 }.

(** ** The named presets *)

Definition preset (depths dims : list Z) (ls_init_value : option Q) : MambaOut.Args.t :=
  MambaOut.Args.mk 3 1000 (Sequence depths) (Sequence dims)
    LayerNorm GELU 1 7 ls_init_value 0 0 LayerNorm [].

Definition mambaout_femto := preset [3; 3; 9; 3] [48; 96; 192; 288] None.
Definition mambaout_kobe := preset [3; 3; 15; 3] [48; 96; 192; 288] None.
Definition mambaout_tiny := preset [3; 3; 9; 3] [96; 192; 384; 576] None.
Definition mambaout_small := preset [3; 4; 27; 3] [96; 192; 384; 576] None.
Definition mambaout_base := preset [3; 4; 27; 3] [128; 256; 512; 768] None.
Definition mambaout_small_rw :=
  preset [3; 4; 27; 3] [96; 192; 384; 576] (Some (1 # 1000000)).
Definition mambaout_base_rw :=
  preset [3; 4; 27; 3] [128; 256; 512; 768] (Some (1 # 1000000)).

(** ** Definitions the statements use *)

(** The block as the specification words it when neither layer scale nor
    stochastic depth is configured:
    [shortcut + fc2(act(gate) * concat(identity-part, conv(conv-part)))]. *)
Definition spec_block_no_scale {T : Type} `{TensorOps T}
  (self : GatedConvBlock.t) (x : T) : result T :=
  let shortcut := x in
  x <- norm_apply (GatedConvBlock.norm self) x;;
  x <- linear (GatedConvBlock.fc1 self) x;;
  gic <- split_last x (GatedConvBlock.split_indices self);;
  match gic with
  | [gate; identity_part; conv_part] =>
      c <- permute [0; 3; 1; 2]%nat conv_part;;
      c <- conv2d (GatedConvBlock.conv self) c;;
      c <- permute [0; 2; 3; 1]%nat c;;
      g <- act_apply (GatedConvBlock.act self) gate;;
      ic <- cat_last [identity_part; c];;
      x <- mul g ic;;
      x <- linear (GatedConvBlock.fc2 self) x;;
      add x shortcut
  | _ => Err ValueError
  end.

(** The stem with its mid-normalisation applied unconditionally. *)
Definition spec_stem_mid_norm {T : Type} `{TensorOps T}
  (self : Stem.t) (n : Norm) (x : T) : result T :=
  x <- conv2d (Stem.conv1 self) x;;
  x <- permute [0; 2; 3; 1]%nat x;;
  x <- norm_apply n x;;
  x <- permute [0; 3; 1; 2]%nat x;;
  x <- act_apply (Stem.act self) x;;
  x <- conv2d (Stem.conv2 self) x;;
  x <- permute [0; 2; 3; 1]%nat x;;
  norm_apply (Stem.norm2 self) x.

(** The arguments [a] with another [ls_init_value]. *)
Definition with_ls_init_value (a : MambaOut.Args.t) (v : option Q) : MambaOut.Args.t :=
  MambaOut.Args.mk (MambaOut.Args.in_chans a) (MambaOut.Args.num_classes a)
    (MambaOut.Args.depths a) (MambaOut.Args.dims a) (MambaOut.Args.norm_layer a)
    (MambaOut.Args.act_layer a) (MambaOut.Args.conv_ratio a) (MambaOut.Args.kernel_size a)
    v (MambaOut.Args.drop_path_rate a) (MambaOut.Args.drop_rate a)
    (MambaOut.Args.output_norm a) (MambaOut.Args.kwargs a).

(** Stride 4 of the stem, stride 2 of every stage but the first. *)
Definition cumulative_stride (num_stage : nat) : Z :=
  4 * 2 ^ (Z.of_nat num_stage - 1).



(** The ordering a stage of index [i] may hold. *)
Definition downsample_by_index (i : nat) (m : DownsampleModule) : Prop :=
  match m with
  | NoDownsample => i = 0%nat
  | ConvThenNorm d =>
      i <> 0%nat
      /\ conv_kernel_size (Downsample.conv d) = 3
      /\ conv_stride (Downsample.conv d) = 2
      /\ conv_padding (Downsample.conv d) = 1
      /\ normalized_shape (Downsample.norm d) = out_channels (Downsample.conv d)
  | NormFirst _ => False
  end.

(** The conditions on a stage width under which its blocks run: the
    width is positive and the identity part of the split is not negative. *)
Definition width_ok (cr : Q) (dim : Z) : Prop :=
  0 < dim
  /\ GatedConvBlock.conv_channels_of cr dim
     <= GatedConvBlock.hidden_of expansion_ratio_default dim.

(** [ceil(n / s)] for a positive [s]. *)
Definition ceil_div (n s : Z) : Z := (n + s - 1) / s.

(** The seven registered models, in the order of the file. *)
Definition registered_models : list MambaOut.Args.t :=
  [mambaout_femto; mambaout_kobe; mambaout_tiny; mambaout_small;
   mambaout_base; mambaout_small_rw; mambaout_base_rw].

(** The rate the [j]-th block of a stage is given: [drop_path[j]] for a
    list or tuple, [drop_path] itself otherwise. *)
Definition drop_path_at (drop_path : ScalarOrSeq Q) (j : nat) : option Q :=
  match drop_path with
  | Sequence l => nth_error l j
  | Scalar r => Some r
  end.

(** The arguments [a] with another [dims]. *)
Definition with_dims (a : MambaOut.Args.t) (dims : ScalarOrSeq Z) : MambaOut.Args.t :=
  MambaOut.Args.mk (MambaOut.Args.in_chans a) (MambaOut.Args.num_classes a)
    (MambaOut.Args.depths a) dims (MambaOut.Args.norm_layer a)
    (MambaOut.Args.act_layer a) (MambaOut.Args.conv_ratio a)
    (MambaOut.Args.kernel_size a) (MambaOut.Args.ls_init_value a)
    (MambaOut.Args.drop_path_rate a) (MambaOut.Args.drop_rate a)
    (MambaOut.Args.output_norm a) (MambaOut.Args.kwargs a).

(** * Properties *)

(** ** Inversion of the error monad and of the layer constructors *)

Lemma bind_Ok {A B : Type} (m : result A) (k : A -> result B) (b : B) :
  bind m k = Ok b -> exists a, m = Ok a /\ k a = Ok b.
Proof.
  destruct m as [a|e]; simpl; intros E; [eauto | discriminate].
Qed.

Ltac inv_bind H :=
  let a := fresh "v" in
  let E := fresh "E" in
  apply bind_Ok in H; destruct H as (a & E & H).

Lemma nn_Conv2d_inv cin cout k s p g c :
  nn_Conv2d cin cout k s p g = Ok c ->
  c = mkConv2d cin cout k s p g /\ 0 < g /\ 0 <= cin /\ 0 <= cout /\ 0 <= k.
Proof.
  unfold nn_Conv2d.
  destruct (g <=? 0) eqn:Eg; [discriminate|].
  destruct (cin mod g =? 0); simpl; [|discriminate].
  destruct (cout mod g =? 0); simpl; [|discriminate].
  destruct (cin <? 0) eqn:E1; simpl; [discriminate|].
  destruct (cout <? 0) eqn:E2; simpl; [discriminate|].
  destruct (k <? 0) eqn:E3; simpl; [discriminate|].
  intros [= <-]. repeat split; lia.
Qed.


Lemma nn_Linear_inv fin fout l :
  nn_Linear fin fout = Ok l -> l = mkLinear fin fout /\ 0 <= fin /\ 0 <= fout.
Proof.
  unfold nn_Linear.
  destruct (fin <? 0) eqn:E1; simpl; [discriminate|].
  destruct (fout <? 0) eqn:E2; simpl; [discriminate|].
  intros [= <-]. repeat split; lia.
Qed.

Lemma norm_layer_new_inv cls d n :
  norm_layer_new cls d = Ok n -> n = mkNorm cls d /\ 0 <= d.
Proof.
  unfold norm_layer_new. destruct (d <? 0) eqn:E; [discriminate|].
  intros [= <-]. split; [reflexivity | lia].
Qed.


Lemma LayerScale_new_inv d v l :
  LayerScale_new d v = Ok l -> l = mkLayerScale d v.
Proof.
  unfold LayerScale_new. destruct (d <? 0); [discriminate|]. now intros [= <-].
Qed.

(** Projections out of explicit layer records. *)
Ltac fields :=
  cbn [GatedConvBlock.norm GatedConvBlock.fc1 GatedConvBlock.act
       GatedConvBlock.split_indices GatedConvBlock.conv GatedConvBlock.fc2
       GatedConvBlock.ls GatedConvBlock.drop_path
       in_features out_features in_channels out_channels conv_kernel_size
       conv_stride conv_padding conv_groups normalized_shape norm_cls ls_dim] in *.

(** ** [int()] truncates *)

Lemma py_int_nonneg (x : Q) : (0 <= x)%Q -> py_int x = Qfloor x.
Proof.
  destruct x as [n d]. unfold Qle, py_int, Qfloor. simpl. intros Hn.
  apply Z.quot_div_nonneg; lia.
Qed.


(** ** What a constructed block holds *)

Lemma GatedConvBlock_init_inv dim er k cr lsv nl al dp blk :
  GatedConvBlock.__init__ dim er k cr lsv nl al dp = Ok blk ->
  let hidden := GatedConvBlock.hidden_of er dim in
  let cc := GatedConvBlock.conv_channels_of cr dim in
  blk = GatedConvBlock.mk (mkNorm nl dim) (mkLinear dim (hidden * 2)) (mkAct al)
          [hidden; hidden - cc; cc] (mkConv2d cc cc k 1 (k / 2) cc)
          (mkLinear hidden dim)
          (match lsv with
           | Some _ => Module_ (mkLayerScale dim None)
           | None => Identity
           end)
          (if Qgt_bool dp 0 then Module_ (mkDropPath dp) else Identity)
  /\ 0 <= dim /\ 0 <= hidden /\ 0 < cc /\ 0 <= k.
Proof.
  intros H hidden cc. unfold GatedConvBlock.__init__ in H.
  fold hidden cc in H.
  inv_bind H. apply norm_layer_new_inv in E as [-> Hd].
  inv_bind H. apply nn_Linear_inv in E as (-> & _ & Hh).
  inv_bind H. apply nn_Conv2d_inv in E as (-> & Hc & _ & _ & Hk).
  inv_bind H. apply nn_Linear_inv in E as (-> & _ & _).
  inv_bind H.
  assert (Els : v = match lsv with
                    | Some _ => Module_ (mkLayerScale dim None)
                    | None => Identity
                    end).
  { destruct lsv.
    - inv_bind E. apply LayerScale_new_inv in E0 as ->. now injection E as <-.
    - now injection E as <-. }
  subst v. injection H as <-.
  repeat split; try lia; reflexivity.
Qed.

(** ** The widths of a block *)




(** ** The channel split *)

Lemma firstn_length_Z {A : Type} (n : Z) (l : list A) :
  0 <= n <= Z.of_nat (length l) -> Z.of_nat (length (firstn (Z.to_nat n) l)) = n.
Proof.
  intros Hn. rewrite length_firstn. lia.
Qed.

Lemma skipn_length_Z {A : Type} (n : Z) (l : list A) :
  0 <= n <= Z.of_nat (length l) ->
  Z.of_nat (length (skipn (Z.to_nat n) l)) = Z.of_nat (length l) - n.
Proof.
  intros Hn. rewrite length_skipn. lia.
Qed.

(** C1, as stated, fails: with [dim = 1], [expansion_ratio = 1] and
    [conv_ratio = 2] the block is constructed with
    [split_indices = (1, -1, 2)]; the sizes add up to the [2 x hidden = 2]
    channels, but [torch.split] rejects the negative size, so the split is
    no partition and the forward pass raises. *)
Lemma C1_split_counterexample :
  exists blk,
    GatedConvBlock.__init__ 1 1 7 2 None LayerNorm GELU 0 = Ok blk
    /\ GatedConvBlock.split_indices blk = [1; -1; 2]
    /\ out_features (GatedConvBlock.fc1 blk) = 2
    /\ torch_split ["channel 0"; "channel 1"]%string
         (GatedConvBlock.split_indices blk) = Err RuntimeError
    /\ GatedConvBlock.forward blk [1; 4; 4; 1] = Err RuntimeError.
Proof.
  eexists. split; [vm_compute; reflexivity|]. vm_compute. repeat split.
Qed.

(** C1, amended: for every constructed block the split sizes are
    [(hidden, hidden - conv_channels, conv_channels)] and add up to the
    [2 x hidden] channels of the expansion.  When
    [conv_channels <= hidden] the split is an order-preserving partition
    of the channels into three contiguous slices of these sizes: their
    concatenation is the input.  When [conv_channels > hidden] the split
    raises. *)
Theorem C1_split_partition (A : Type) dim er k cr lsv nl al dp blk :
  GatedConvBlock.__init__ dim er k cr lsv nl al dp = Ok blk ->
  let hidden := in_features (GatedConvBlock.fc2 blk) in
  let conv_channels := in_channels (GatedConvBlock.conv blk) in
  GatedConvBlock.split_indices blk = [hidden; hidden - conv_channels; conv_channels]
  /\ out_features (GatedConvBlock.fc1 blk) = 2 * hidden
  /\ py_sum (GatedConvBlock.split_indices blk) = 2 * hidden
  /\ (conv_channels <= hidden ->
      forall x : list A,
        Z.of_nat (length x) = out_features (GatedConvBlock.fc1 blk) ->
        exists g i c,
          torch_split x (GatedConvBlock.split_indices blk) = Ok [g; i; c]
          /\ Z.of_nat (length g) = hidden
          /\ Z.of_nat (length i) = hidden - conv_channels
          /\ Z.of_nat (length c) = conv_channels
          /\ g ++ i ++ c = x)
  /\ (hidden < conv_channels ->
      forall x : list A,
        torch_split x (GatedConvBlock.split_indices blk) = Err RuntimeError).
Proof.
  intros H. apply GatedConvBlock_init_inv in H as (-> & _ & Hh & Hc & _).
  fields.
  set (h := GatedConvBlock.hidden_of er dim) in *.
  set (c := GatedConvBlock.conv_channels_of cr dim) in *.
  split; [reflexivity|]. split; [lia|]. split; [cbn [py_sum fold_right]; lia|]. split.
  - intros Hle x Hx.
    exists (firstn (Z.to_nat h) x),
           (firstn (Z.to_nat (h - c)) (skipn (Z.to_nat h) x)),
           (firstn (Z.to_nat c) (skipn (Z.to_nat (h - c)) (skipn (Z.to_nat h) x))).
    assert (L1 : Z.of_nat (length (skipn (Z.to_nat h) x)) = h)
      by (rewrite skipn_length_Z; lia).
    assert (L2 : Z.of_nat (length (skipn (Z.to_nat (h - c)) (skipn (Z.to_nat h) x))) = c)
      by (rewrite skipn_length_Z; lia).
    split.
    + unfold torch_split. cbn [forallb py_sum fold_right split_chunks].
      replace (0 <=? h) with true by (symmetry; apply Z.leb_le; lia).
      replace (0 <=? h - c) with true by (symmetry; apply Z.leb_le; lia).
      replace (0 <=? c) with true by (symmetry; apply Z.leb_le; lia).
      replace (h + (h - c + (c + 0)) =? Z.of_nat (length x)) with true
        by (symmetry; apply Z.eqb_eq; lia).
      reflexivity.
    + split; [apply firstn_length_Z; lia|].
      split; [apply firstn_length_Z; lia|].
      split; [apply firstn_length_Z; lia|].
      rewrite (firstn_all2 (n := Z.to_nat c)) by lia.
      now rewrite !firstn_skipn.
  - intros Hlt x. unfold torch_split. cbn [forallb].
    replace (0 <=? h - c) with false by (symmetry; apply Z.leb_gt; lia).
    now rewrite andb_false_r.
Qed.

Lemma C1_split_partition_witness :
  exists blk g i c,
    GatedConvBlock.__init__ 3 (8 # 3) 7 (2 # 3) None LayerNorm GELU 0 = Ok blk
    /\ torch_split [0; 1; 2; 3; 4; 5; 6; 7; 8; 9; 10; 11; 12; 13; 14; 15]
         (GatedConvBlock.split_indices blk) = Ok [g; i; c]
    /\ g ++ i ++ c = [0; 1; 2; 3; 4; 5; 6; 7; 8; 9; 10; 11; 12; 13; 14; 15].
Proof.
  eexists.
  destruct (C1_split_partition Z 3 (8 # 3) 7 (2 # 3) None LayerNorm GELU 0 _
              eq_refl) as (_ & _ & _ & Hpart & _).
  destruct (Hpart ltac:(vm_compute; discriminate)
              [0; 1; 2; 3; 4; 5; 6; 7; 8; 9; 10; 11; 12; 13; 14; 15] eq_refl)
    as (g & i & c & Hs & _ & _ & _ & Hcat).
  exists g, i, c. split; [reflexivity|]. split; [exact Hs | exact Hcat].
Defined.

(** ** Layer scale and stochastic depth switched off *)

Lemma Qgt_bool_zero (q : Q) : (q == 0)%Q -> Qgt_bool q 0 = false.
Proof.
  intros Hq. unfold Qgt_bool.
  assert (Hle : Qle_bool q 0 = true) by (apply Qle_bool_iff; rewrite Hq; apply Qle_refl).
  now rewrite Hle.
Qed.

(** C4: a block constructed with drop-path rate 0 and without a
    layer-scale initial value holds [nn.Identity()] for both steps, and its
    forward pass is
    [shortcut + fc2(act(gate) * concat(identity-part, conv(conv-part)))],
    whatever the tensor primitives are. *)
Theorem C4_no_scale_no_drop (T : Type) (ops : TensorOps T)
  dim er k cr nl al dp blk (x : T) :
  (dp == 0)%Q ->
  GatedConvBlock.__init__ dim er k cr None nl al dp = Ok blk ->
  GatedConvBlock.ls blk = Identity
  /\ GatedConvBlock.drop_path blk = Identity
  /\ GatedConvBlock.forward blk x = spec_block_no_scale blk x.
Proof.
  intros Hdp H. apply GatedConvBlock_init_inv in H as (-> & _).
  rewrite (Qgt_bool_zero dp Hdp). repeat split.
Qed.

Lemma C4_no_scale_no_drop_witness :
  exists blk,
    GatedConvBlock.__init__ 3 (8 # 3) 7 1 None LayerNorm GELU 0 = Ok blk
    /\ GatedConvBlock.forward blk [2; 4; 4; 3] = spec_block_no_scale blk [2; 4; 4; 3]
    /\ spec_block_no_scale blk [2; 4; 4; 3] = Ok [2; 4; 4; 3].
Proof.
  eexists. split; [vm_compute; reflexivity|]. split.
  - apply (C4_no_scale_no_drop Shape ShapeOps 3 (8 # 3) 7 1 LayerNorm GELU 0 _
             [2; 4; 4; 3] (Qeq_refl 0) eq_refl).
  - vm_compute. reflexivity.
Defined.

(** ** The value of [ls_init_value] *)

Lemma build_stages_ls_value a v1 v2 depths dims dp_rates idxs prev_dim :
  MambaOut.build_stages (with_ls_init_value a (Some v1)) depths dims dp_rates
    idxs prev_dim
  = MambaOut.build_stages (with_ls_init_value a (Some v2)) depths dims dp_rates
    idxs prev_dim.
Proof.
  revert prev_dim. induction idxs as [|i idxs IH]; intros prev_dim; [reflexivity|].
  cbn [MambaOut.build_stages].
  destruct (py_index dims i) as [dim|]; [|reflexivity]. cbn [bind].
  destruct (py_index depths i) as [depth|]; [|reflexivity]. cbn [bind].
  destruct (py_index dp_rates i) as [dp|]; [|reflexivity]. cbn [bind].
  rewrite IH. reflexivity.
Qed.

(** C9: the numeric value of a configured [ls_init_value] never reaches
    [LayerScale], which is created from the dimension alone.  Two block
    constructions, or two network constructions, that differ only in that
    value give the same result, hence the same forward function; a block
    built with a value holds [LayerScale(dim)], a block built with [None]
    holds [nn.Identity()]. *)
Theorem C9_ls_init_value_unused :
  (forall dim er k cr nl al dp (v1 v2 : Q),
     GatedConvBlock.__init__ dim er k cr (Some v1) nl al dp
     = GatedConvBlock.__init__ dim er k cr (Some v2) nl al dp)
  /\ (forall a (v1 v2 : Q),
        MambaOut.__init__ (with_ls_init_value a (Some v1))
        = MambaOut.__init__ (with_ls_init_value a (Some v2)))
  /\ (forall (T : Type) (ops : TensorOps T) dim er k cr nl al dp (v1 v2 : Q)
             blk1 blk2 (x : T),
        GatedConvBlock.__init__ dim er k cr (Some v1) nl al dp = Ok blk1 ->
        GatedConvBlock.__init__ dim er k cr (Some v2) nl al dp = Ok blk2 ->
        GatedConvBlock.forward blk1 x = GatedConvBlock.forward blk2 x)
  /\ (forall dim er k cr nl al dp (v : Q) blk,
        GatedConvBlock.__init__ dim er k cr (Some v) nl al dp = Ok blk ->
        GatedConvBlock.ls blk = Module_ (mkLayerScale dim None))
  /\ (forall dim er k cr nl al dp blk,
        GatedConvBlock.__init__ dim er k cr None nl al dp = Ok blk ->
        GatedConvBlock.ls blk = Identity).
Proof.
  split; [reflexivity|]. split.
  - intros a v1 v2. unfold MambaOut.__init__.
    cbn [with_ls_init_value MambaOut.Args.depths MambaOut.Args.dims MambaOut.Args.in_chans
         MambaOut.Args.act_layer MambaOut.Args.norm_layer MambaOut.Args.drop_path_rate
         MambaOut.Args.output_norm MambaOut.Args.num_classes MambaOut.Args.drop_rate].
    destruct (py_index (MambaOut.as_list (MambaOut.Args.dims a)) 0) as [d0|];
      [|reflexivity]. cbn [bind].
    destruct (Stem.__init__ _ _ _ _ _); [|reflexivity]. cbn [bind].
    destruct (MambaOut.dp_rates_of _ _); [|reflexivity]. cbn [bind].
    now rewrite (build_stages_ls_value a v1 v2).
  - split.
    + intros T ops dim er k cr nl al dp v1 v2 blk1 blk2 x H1 H2.
      assert (E : Ok blk1 = Ok blk2) by (rewrite <- H1, <- H2; reflexivity).
      now injection E as ->.
    + split.
      * intros dim er k cr nl al dp v blk H.
        now apply GatedConvBlock_init_inv in H as (-> & _).
      * intros dim er k cr nl al dp blk H.
        now apply GatedConvBlock_init_inv in H as (-> & _).
Qed.

Lemma C9_ls_init_value_unused_witness :
  MambaOut.__init__ mambaout_small_rw
  = MambaOut.__init__ (with_ls_init_value mambaout_small_rw (Some 1%Q))
  /\ is_ok (MambaOut.__init__ mambaout_small_rw) = true.
Proof.
  split; [|vm_compute; reflexivity].
  exact (proj1 (proj2 C9_ls_init_value_unused) mambaout_small_rw (1 # 1000000) 1%Q).
Defined.

(** ** What a constructed network holds *)

Lemma MambaOut_init_inv a net :
  MambaOut.__init__ a = Ok net ->
  let depths := MambaOut.as_list (MambaOut.Args.depths a) in
  let dims := MambaOut.as_list (MambaOut.Args.dims a) in
  exists dims0 dp_rates last_dim,
    py_index dims 0 = Ok dims0
    /\ Stem.__init__ (MambaOut.Args.in_chans a) dims0 Stem.mid_norm_default
         (MambaOut.Args.act_layer a) (MambaOut.Args.norm_layer a) = Ok (MambaOut.stem net)
    /\ MambaOut.dp_rates_of (MambaOut.Args.drop_path_rate a) depths = Ok dp_rates
    /\ MambaOut.build_stages a depths dims dp_rates (seq 0 (length depths)) dims0
       = Ok (MambaOut.stages net, last_dim)
    /\ MambaOut.num_stage net = length depths.
Proof.
  intros H depths dims. unfold MambaOut.__init__ in H. fold depths dims in H.
  inv_bind H. rename v into dims0.
  inv_bind H. rename v into stem.
  inv_bind H. rename v into dp_rates.
  inv_bind H. destruct v as [sts last_dim].
  inv_bind H. inv_bind H. injection H as <-.
  exists dims0, dp_rates, last_dim.
  cbn [MambaOut.stem MambaOut.stages MambaOut.num_stage fst snd] in *.
  repeat split; assumption.
Qed.

Lemma Stem_init_inv in_chs out_chs mid_norm al nl st :
  Stem.__init__ in_chs out_chs mid_norm al nl = Ok st ->
  st = Stem.mk (mkConv2d in_chs (out_chs / 2) 3 2 1 1)
         (if mid_norm then Some (mkNorm nl (out_chs / 2)) else None)
         (mkAct al)
         (mkConv2d (out_chs / 2) out_chs 3 2 1 1)
         (mkNorm nl out_chs).
Proof.
  intros H. unfold Stem.__init__ in H.
  inv_bind H. apply nn_Conv2d_inv in E as (-> & _).
  inv_bind H.
  assert (En : v = if mid_norm then Some (mkNorm nl (out_chs / 2)) else None).
  { destruct mid_norm.
    - inv_bind E. apply norm_layer_new_inv in E0 as (-> & _). now injection E as <-.
    - now injection E as <-. }
  subst v.
  inv_bind H. apply nn_Conv2d_inv in E0 as (-> & _).
  inv_bind H. apply norm_layer_new_inv in E0 as (-> & _).
  now injection H as <-.
Qed.

(** ** The stem of a network *)

(** C10: [MambaOut] builds its stem without a [mid_norm] argument, so
    every constructed network, whatever its arguments (the ignored
    [kwargs] included), has [norm1] present, and the stem's forward pass
    applies it between the two convolutions. *)
Theorem C10_stem_mid_norm a net :
  MambaOut.__init__ a = Ok net ->
  exists dims0 n,
    py_index (MambaOut.as_list (MambaOut.Args.dims a)) 0 = Ok dims0
    /\ n = mkNorm (MambaOut.Args.norm_layer a) (dims0 / 2)
    /\ Stem.norm1 (MambaOut.stem net) = Some n
    /\ forall (T : Type) (ops : TensorOps T) (x : T),
         Stem.forward (MambaOut.stem net) x
         = spec_stem_mid_norm (MambaOut.stem net) n x.
Proof.
  intros H. apply MambaOut_init_inv in H as (dims0 & _ & _ & H0 & Hs & _).
  apply Stem_init_inv in Hs. unfold Stem.mid_norm_default in Hs.
  exists dims0, (mkNorm (MambaOut.Args.norm_layer a) (dims0 / 2)).
  rewrite Hs. cbn [Stem.norm1]. repeat split; try assumption.
  intros T ops x. unfold Stem.forward, spec_stem_mid_norm.
  cbn [Stem.norm1 Stem.conv1].
  destruct (conv2d _ x) as [x1|]; [cbn [bind] | reflexivity].
  destruct (permute _ x1) as [x2|]; [cbn [bind] | reflexivity].
  destruct (norm_apply _ x2) as [x3|]; [cbn [bind] | reflexivity].
  destruct (permute _ x3) as [x4|]; reflexivity.
Qed.

Lemma C10_stem_mid_norm_witness :
  exists net,
    MambaOut.__init__
      (MambaOut.Args.mk 3 1000 (Sequence [3; 3; 9; 3]) (Sequence [96; 192; 384; 576])
         LayerNorm GELU 1 7 None 0 0 LayerNorm
         [("mid_norm"%string, PyBool false)]) = Ok net
    /\ Stem.norm1 (MambaOut.stem net) = Some (mkNorm LayerNorm 48).
Proof.
  eexists. split; [vm_compute; reflexivity|].
  destruct (C10_stem_mid_norm
              (MambaOut.Args.mk 3 1000 (Sequence [3; 3; 9; 3])
                 (Sequence [96; 192; 384; 576]) LayerNorm GELU 1 7 None 0 0
                 LayerNorm [("mid_norm"%string, PyBool false)]) _ eq_refl)
    as (dims0 & n & H0 & Hn & H1 & _).
  vm_compute in H0. injection H0 as <-. rewrite Hn in H1. exact H1.
Defined.

(** ** What a constructed stage holds *)

Lemma Downsample_init_inv cin cout nl d :
  Downsample.__init__ cin cout nl = Ok d ->
  d = Downsample.mk (mkConv2d cin cout 3 2 1 1) (mkNorm nl cout).
Proof.
  intros H. unfold Downsample.__init__ in H.
  inv_bind H. apply nn_Conv2d_inv in E as (-> & _).
  inv_bind H. apply norm_layer_new_inv in E as (-> & _).
  now injection H as <-.
Qed.

Lemma MambaOutStage_init_inv dim dim_out depth er k cr ds lsv nl al dp st :
  MambaOutStage.__init__ dim dim_out depth er k cr ds lsv nl al dp = Ok st ->
  let dim_out' := py_or dim_out dim in
  MambaOutStage.grad_checkpointing st = false
  /\ MambaOutStage.downsample st
     = (if ds
        then ConvThenNorm (Downsample.mk (mkConv2d dim dim_out' 3 2 1 1)
                             (mkNorm nl dim_out'))
        else NoDownsample)
  /\ (ds = false -> dim = dim_out')
  /\ MambaOutStage.build_blocks dim_out' depth er k cr lsv nl al dp
     = Ok (MambaOutStage.blocks st).
Proof.
  intros H dim_out'. unfold MambaOutStage.__init__ in H. fold dim_out' in H.
  inv_bind H. inv_bind H. injection H as <-.
  cbn [MambaOutStage.grad_checkpointing MambaOutStage.downsample
       MambaOutStage.blocks].
  split; [reflexivity|]. destruct ds.
  - inv_bind E. apply Downsample_init_inv in E1 as ->. injection E as <-.
    repeat split; [discriminate | assumption].
  - destruct (dim =? dim_out') eqn:Ed; [|discriminate]. injection E as <-.
    repeat split; [intros _; now apply Z.eqb_eq | assumption].
Qed.

Lemma Forall2_nth_error_r {A B : Type} (P : A -> B -> Prop) l1 l2 :
  Forall2 P l1 l2 ->
  forall i b, nth_error l2 i = Some b ->
  exists a, nth_error l1 i = Some a /\ P a b.
Proof.
  induction 1 as [|a b l1 l2 Hab _ IH]; intros i y Hy.
  - destruct i; discriminate.
  - destruct i as [|i]; cbn in *.
    + injection Hy as <-. eauto.
    + eauto.
Qed.

Lemma nth_error_seq_Some start len i j :
  nth_error (seq start len) i = Some j -> j = (start + i)%nat.
Proof.
  revert start i. induction len as [|len IH]; intros start i H.
  - destruct i; discriminate.
  - destruct i as [|i]; cbn in H.
    + injection H as <-. lia.
    + apply IH in H. lia.
Qed.

(** ** The downsampling of a stage *)

Lemma build_stages_downsample a depths dims dp_rates idxs prev_dim built :
  MambaOut.build_stages a depths dims dp_rates idxs prev_dim = Ok built ->
  Forall2 (fun i st => downsample_by_index i (MambaOutStage.downsample st))
    idxs (fst built).
Proof.
  revert prev_dim built. induction idxs as [|i idxs IH]; intros prev_dim built H.
  - injection H as <-. constructor.
  - cbn [MambaOut.build_stages] in H.
    inv_bind H. inv_bind H. inv_bind H. inv_bind H. inv_bind H.
    injection H as <-. cbn [fst]. constructor; [|now apply (IH _ _ E3)].
    apply MambaOutStage_init_inv in E2 as (_ & Hd & _). rewrite Hd.
    destruct (0 <? Z.of_nat i) eqn:Ei; cbn.
    + apply Z.ltb_lt in Ei. repeat split; lia.
    + apply Z.ltb_ge in Ei. lia.
Qed.

Lemma stages_downsample a net i st :
  MambaOut.__init__ a = Ok net ->
  nth_error (MambaOut.stages net) i = Some st ->
  downsample_by_index i (MambaOutStage.downsample st).
Proof.
  intros H Hi. apply MambaOut_init_inv in H as (d0 & dp & last & _ & _ & _ & Hb & _).
  apply build_stages_downsample in Hb. cbn [fst] in Hb.
  destruct (Forall2_nth_error_r _ _ _ Hb i st Hi) as (j & Hj & HP).
  apply nth_error_seq_Some in Hj. now subst j.
Qed.

(** C6, as stated, fails: no construction of a network puts a
    normalise-first downsampling in a stage. *)
Lemma C6_selectable_counterexample :
  ~ exists a net i st d,
      MambaOut.__init__ a = Ok net
      /\ nth_error (MambaOut.stages net) i = Some st
      /\ MambaOutStage.downsample st = NormFirst d.
Proof.
  intros (a & net & i & st & d & H & Hi & Hd).
  pose proof (stages_downsample a net i st H Hi) as HP.
  rewrite Hd in HP. exact HP.
Qed.

(** C6, amended: the ordering is fixed, not selectable.  In every
    constructed network the first stage has no downsampling and every
    later stage downsamples by convolve-then-normalise (kernel 3, stride 2,
    padding 1, then the normalisation of the output channels);
    [DownsampleNormFirst] is never instantiated. *)
Theorem C6_downsample_conv_then_norm a net i st :
  MambaOut.__init__ a = Ok net ->
  nth_error (MambaOut.stages net) i = Some st ->
  match MambaOutStage.downsample st with
  | NoDownsample => i = 0%nat
  | ConvThenNorm d =>
      i <> 0%nat
      /\ conv_kernel_size (Downsample.conv d) = 3
      /\ conv_stride (Downsample.conv d) = 2
      /\ conv_padding (Downsample.conv d) = 1
      /\ normalized_shape (Downsample.norm d) = out_channels (Downsample.conv d)
      /\ forall (T : Type) (ops : TensorOps T) (x : T),
           DownsampleModule_forward (MambaOutStage.downsample st) x
           = (x <- permute [0; 3; 1; 2]%nat x;;
              x <- conv2d (Downsample.conv d) x;;
              x <- permute [0; 2; 3; 1]%nat x;;
              norm_apply (Downsample.norm d) x)
  | NormFirst _ => False
  end.
Proof.
  intros H Hi. pose proof (stages_downsample a net i st H Hi) as HP.
  unfold downsample_by_index in HP.
  destruct (MambaOutStage.downsample st) as [d| |]; try exact HP.
  destruct HP as (H1 & H2 & H3 & H4 & H5). repeat split; assumption.
Qed.

Lemma C6_downsample_conv_then_norm_witness :
  exists net st d,
    MambaOut.__init__ mambaout_tiny = Ok net
    /\ nth_error (MambaOut.stages net) 1 = Some st
    /\ MambaOutStage.downsample st = ConvThenNorm d
    /\ conv_stride (Downsample.conv d) = 2.
Proof.
  destruct (MambaOut.__init__ mambaout_tiny) as [net|e] eqn:E;
    [|vm_compute in E; discriminate].
  destruct (nth_error (MambaOut.stages net) 1) as [st|] eqn:Es.
  - exists net, st.
    pose proof (C6_downsample_conv_then_norm mambaout_tiny net 1 st E Es) as HP.
    destruct (MambaOutStage.downsample st) as [d| |].
    + exists d. destruct HP as (_ & _ & H3 & _). repeat split; assumption.
    + destruct HP.
    + discriminate HP.
  - vm_compute in E. injection E as <-. vm_compute in Es. discriminate.
Defined.

(** ** Construction of a stage *)





(** ** The drop-path schedule *)

Lemma split_chunks_concat {A : Type} (sizes : list Z) (l : list A) :
  forallb (fun s => 0 <=? s) sizes = true ->
  py_sum sizes = Z.of_nat (length l) ->
  concat (split_chunks sizes l) = l
  /\ map (fun s => Z.of_nat (length s)) (split_chunks sizes l) = sizes.
Proof.
  revert l. induction sizes as [|s sizes IH]; intros l Hpos Hsum.
  - cbn in *. destruct l; [split; reflexivity | discriminate].
  - cbn [forallb] in Hpos. apply andb_prop in Hpos as [Hs Hpos].
    apply Z.leb_le in Hs. cbn [py_sum fold_right] in Hsum.
    fold (py_sum sizes) in Hsum.
    assert (Hp : 0 <= py_sum sizes).
    { clear -Hpos. induction sizes as [|t sizes IH]; cbn in *; [lia|].
      apply andb_prop in Hpos as [Ht Hpos]. apply Z.leb_le in Ht.
      specialize (IH Hpos). unfold py_sum in IH. lia. }
    destruct (IH (skipn (Z.to_nat s) l) Hpos) as [Hc Hl].
    { rewrite skipn_length_Z; lia. }
    cbn [split_chunks concat map]. rewrite Hc, Hl, firstn_skipn.
    split; [reflexivity|]. f_equal. apply firstn_length_Z. lia.
Qed.

Lemma torch_split_concat {A : Type} (l : list A) sizes chunks :
  torch_split l sizes = Ok chunks ->
  concat chunks = l /\ map (fun s => Z.of_nat (length s)) chunks = sizes.
Proof.
  unfold torch_split.
  destruct (forallb (fun s => 0 <=? s) sizes) eqn:Hpos; [|discriminate].
  destruct (py_sum sizes =? Z.of_nat (length l)) eqn:Hsum; [|discriminate].
  intros [= <-]. apply split_chunks_concat; [assumption | now apply Z.eqb_eq].
Qed.







(** ** Shapes through the primitives *)

Lemma shape_norm_4 n b h w c :
  normalized_shape n = c -> shape_norm n [b; h; w; c] = Ok [b; h; w; c].
Proof.
  intros <-. unfold shape_norm, shape_last. cbn [last].
  now rewrite Z.eqb_refl.
Qed.

Lemma shape_linear_4 l b h w c :
  in_features l = c ->
  shape_linear l [b; h; w; c] = Ok [b; h; w; out_features l].
Proof.
  intros <-. unfold shape_linear, shape_last, with_last. cbn [last removelast app].
  now rewrite Z.eqb_refl.
Qed.

Lemma shape_split_3 b h w c s1 s2 s3 :
  0 <= s1 -> 0 <= s2 -> 0 <= s3 -> s1 + s2 + s3 = c ->
  shape_split_last [b; h; w; c] [s1; s2; s3]
  = Ok [[b; h; w; s1]; [b; h; w; s2]; [b; h; w; s3]].
Proof.
  intros H1 H2 H3 Hs. unfold shape_split_last, shape_last, with_last.
  cbn [last removelast app forallb py_sum fold_right map].
  replace (0 <=? s1) with true by (symmetry; now apply Z.leb_le).
  replace (0 <=? s2) with true by (symmetry; now apply Z.leb_le).
  replace (0 <=? s3) with true by (symmetry; now apply Z.leb_le).
  replace (s1 + (s2 + (s3 + 0)) =? c) with true by (symmetry; apply Z.eqb_eq; lia).
  reflexivity.
Qed.

Lemma shape_permute_channel_first b h w c :
  shape_permute [0; 3; 1; 2]%nat [b; h; w; c] = Ok [b; c; h; w].
Proof. reflexivity. Qed.

Lemma shape_permute_channel_last b c h w :
  shape_permute [0; 2; 3; 1]%nat [b; c; h; w] = Ok [b; h; w; c].
Proof. reflexivity. Qed.

Lemma shape_conv2d_4 cv b c h w :
  in_channels cv = c ->
  0 < conv_kernel_size cv -> 0 < conv_stride cv -> 0 <= conv_padding cv ->
  conv_kernel_size cv <= h + 2 * conv_padding cv ->
  conv_kernel_size cv <= w + 2 * conv_padding cv ->
  shape_conv2d cv [b; c; h; w]
  = Ok [b; out_channels cv;
        conv_out h (conv_kernel_size cv) (conv_stride cv) (conv_padding cv);
        conv_out w (conv_kernel_size cv) (conv_stride cv) (conv_padding cv)].
Proof.
  intros <- Hk Hs Hp Hh Hw. unfold shape_conv2d.
  rewrite Z.eqb_refl. cbn [negb].
  replace (conv_kernel_size cv <=? 0) with false by (symmetry; apply Z.leb_gt; lia).
  replace (conv_stride cv <=? 0) with false by (symmetry; apply Z.leb_gt; lia).
  replace (conv_padding cv <? 0) with false by (symmetry; apply Z.ltb_ge; lia).
  replace (h + 2 * conv_padding cv <? conv_kernel_size cv) with false
    by (symmetry; apply Z.ltb_ge; lia).
  replace (w + 2 * conv_padding cv <? conv_kernel_size cv) with false
    by (symmetry; apply Z.ltb_ge; lia).
  reflexivity.
Qed.

(** Same-padding with an odd kernel keeps the extent. *)
Lemma conv_out_same k n :
  Z.odd k = true -> conv_out n k 1 (k / 2) = n.
Proof.
  intros Hk. unfold conv_out. rewrite Z.div_1_r.
  pose proof (Z.div_mod k 2 ltac:(lia)) as Hdm.
  rewrite Zmod_odd, Hk in Hdm. lia.
Qed.

Lemma odd_half_bounds k :
  Z.odd k = true -> 0 <= k -> 0 < k /\ 0 <= k / 2 /\ 2 * (k / 2) = k - 1.
Proof.
  intros Hk H0. pose proof (Z.div_mod k 2 ltac:(lia)) as Hdm.
  rewrite Zmod_odd, Hk in Hdm. lia.
Qed.


Lemma shape_cat_2 b h w c1 c2 c :
  c1 + c2 = c ->
  shape_cat_last [[b; h; w; c1]; [b; h; w; c2]] = Ok [b; h; w; c].
Proof.
  intros <-. unfold shape_cat_last, shape_eqb, shape_last, with_last.
  cbn [forallb length removelast combine fst snd Nat.eqb negb andb map last
       py_sum fold_right app].
  rewrite !Z.eqb_refl. cbn [andb]. now rewrite Z.add_0_r.
Qed.

Lemma broadcast_same_4 b h w c :
  broadcast [b; h; w; c] [b; h; w; c] = Ok [b; h; w; c].
Proof.
  unfold broadcast. cbn [rev app broadcast_rev bind].
  now rewrite !Z.eqb_refl.
Qed.

Lemma broadcast_channel_4 b h w c :
  broadcast [b; h; w; c] [c] = Ok [b; h; w; c].
Proof.
  unfold broadcast. cbn [rev app broadcast_rev bind].
  now rewrite !Z.eqb_refl.
Qed.

(** ** Shapes through a block *)

Lemma GatedConvBlock_split_cat_shape dim er k cr lsv nl al dp blk b h w :
  GatedConvBlock.__init__ dim er k cr lsv nl al dp = Ok blk ->
  let hidden := GatedConvBlock.hidden_of er dim in
  let cc := GatedConvBlock.conv_channels_of cr dim in
  cc <= hidden ->
  shape_split_last [b; h; w; out_features (GatedConvBlock.fc1 blk)]
    (GatedConvBlock.split_indices blk)
  = Ok [[b; h; w; hidden]; [b; h; w; hidden - cc]; [b; h; w; cc]]
  /\ shape_cat_last [[b; h; w; hidden - cc]; [b; h; w; cc]] = Ok [b; h; w; hidden].
Proof.
  intros H hidden cc Hle.
  apply GatedConvBlock_init_inv in H as (-> & Hd & Hh & Hc & Hk).
  fold hidden cc in Hh, Hc |- *. fields. split.
  - apply shape_split_3; lia.
  - apply shape_cat_2. lia.
Qed.

Lemma GatedConvBlock_forward_shape dim er k cr lsv nl al dp blk b h w :
  GatedConvBlock.__init__ dim er k cr lsv nl al dp = Ok blk ->
  Z.odd k = true ->
  GatedConvBlock.conv_channels_of cr dim <= GatedConvBlock.hidden_of er dim ->
  0 < h -> 0 < w ->
  GatedConvBlock.forward blk [b; h; w; dim] = Ok [b; h; w; dim].
Proof.
  intros H Hodd Hle Hh Hw.
  destruct (GatedConvBlock_split_cat_shape _ _ _ _ _ _ _ _ _ b h w H Hle)
    as [Hsplit Hcat].
  apply GatedConvBlock_init_inv in H as (-> & Hd & Hhid & Hc & Hk).
  destruct (odd_half_bounds k Hodd Hk) as (Hk0 & Hp & Hkp).
  set (hidden := GatedConvBlock.hidden_of er dim) in *.
  set (cc := GatedConvBlock.conv_channels_of cr dim) in *.
  fields. unfold GatedConvBlock.forward.
  cbn [norm_apply linear split_last permute conv2d act_apply cat_last mul add
       layer_scale drop_path_apply ShapeOps].
  fields.
  rewrite shape_norm_4 by reflexivity. cbn [bind].
  rewrite shape_linear_4 by reflexivity. cbn [bind]. fields.
  rewrite Hsplit. cbn [bind].
  rewrite shape_permute_channel_first. cbn [bind].
  rewrite shape_conv2d_4 by (fields; lia). cbn [bind]. fields.
  rewrite !conv_out_same by assumption.
  rewrite shape_permute_channel_last. cbn [bind].
  rewrite Hcat. cbn [bind].
  rewrite broadcast_same_4. cbn [bind].
  rewrite shape_linear_4 by reflexivity. cbn [bind]. fields.
  destruct lsv; destruct (Qgt_bool dp 0);
    cbn [call_or_identity ls_dim bind];
    rewrite ?broadcast_channel_4; cbn [bind];
  apply broadcast_same_4.
Qed.

Lemma py_int_nonpos (x : Q) : (x <= 0)%Q -> py_int x = Qceiling x.
Proof.
  destruct x as [n d]. unfold Qle, py_int, Qceiling, Qfloor. simpl. intros Hn.
  replace n with (- - n) at 1 by lia.
  rewrite Z.quot_opp_l by lia. f_equal. apply Z.quot_div_nonneg; lia.
Qed.

Lemma py_int_monotone (x y : Q) : (x <= y)%Q -> py_int x <= py_int y.
Proof.
  intros Hxy.
  destruct (Qlt_le_dec x 0) as [Hx|Hx]; destruct (Qlt_le_dec y 0) as [Hy|Hy].
  - rewrite !py_int_nonpos by now apply Qlt_le_weak.
    now apply Qceiling_resp_le.
  - rewrite (py_int_nonpos x) by now apply Qlt_le_weak.
    rewrite (py_int_nonneg y) by assumption.
    assert (Qceiling x <= 0).
    { change 0 with (Qceiling 0). apply Qceiling_resp_le. now apply Qlt_le_weak. }
    assert (0 <= Qfloor y).
    { change 0 with (Qfloor 0). now apply Qfloor_resp_le. }
    lia.
  - exfalso. apply (Qlt_irrefl 0).
    apply Qle_lt_trans with y; [now apply Qle_trans with x | assumption].
  - rewrite !py_int_nonneg by assumption. now apply Qfloor_resp_le.
Qed.

(** A conv ratio that does not exceed the expansion ratio keeps the
    identity part non-negative. *)
Lemma conv_channels_le_hidden (er cr : Q) (dim : Z) :
  0 <= dim -> (cr <= er)%Q ->
  GatedConvBlock.conv_channels_of cr dim <= GatedConvBlock.hidden_of er dim.
Proof.
  intros Hd Hle. unfold GatedConvBlock.conv_channels_of, GatedConvBlock.hidden_of.
  apply py_int_monotone. unfold q_times. apply Qmult_le_compat_r; [assumption|].
  change 0%Q with (inject_Z 0). now rewrite <- Zle_Qle.
Qed.




(** ** Shapes through a stage *)

Lemma mapM_Ok_Forall {A B : Type} (f : A -> result B) l bs :
  mapM f l = Ok bs -> Forall (fun b => exists a, f a = Ok b) bs.
Proof.
  revert bs. induction l as [|a l IH]; intros bs H.
  - injection H as <-. constructor.
  - cbn [mapM] in H. inv_bind H. inv_bind H. injection H as <-.
    constructor; [eauto | now apply IH].
Qed.

Lemma build_blocks_Forall dim_out depth er k cr lsv nl al dp bs :
  MambaOutStage.build_blocks dim_out depth er k cr lsv nl al dp = Ok bs ->
  Forall (fun blk => exists r,
            GatedConvBlock.__init__ dim_out er k cr lsv nl al r = Ok blk) bs.
Proof.
  intros H. apply mapM_Ok_Forall in H.
  eapply Forall_impl; [|exact H]. cbn beta.
  intros blk (j & Hj). inv_bind Hj. eauto.
Qed.

Lemma blocks_forward_shape dim er k cr lsv nl al bs b h w :
  Forall (fun blk => exists r,
            GatedConvBlock.__init__ dim er k cr lsv nl al r = Ok blk) bs ->
  Z.odd k = true ->
  GatedConvBlock.conv_channels_of cr dim <= GatedConvBlock.hidden_of er dim ->
  0 < h -> 0 < w ->
  Sequential_forward GatedConvBlock.forward bs [b; h; w; dim] = Ok [b; h; w; dim].
Proof.
  intros Hbs Hodd Hle Hh Hw. induction Hbs as [|blk bs (r & Hblk) _ IH].
  - reflexivity.
  - cbn [Sequential_forward].
    rewrite (GatedConvBlock_forward_shape _ _ _ _ _ _ _ _ _ b h w Hblk Hodd Hle Hh Hw).
    exact IH.
Qed.




(** ** Shapes through the stem and the stages *)


Lemma py_index_Forall {A : Type} (P : A -> Prop) l i a :
  Forall P l -> py_index l i = Ok a -> P a.
Proof.
  intros HP H. unfold py_index in H.
  destruct (nth_error l i) as [x|] eqn:E; [|discriminate].
  injection H as <-. rewrite Forall_forall in HP.
  apply HP. eapply nth_error_In. exact E.
Qed.

Lemma py_index_nth l i (a : Z) : py_index l i = Ok a -> nth i l 0 = a.
Proof.
  unfold py_index. destruct (nth_error l i) as [x|] eqn:E; [|discriminate].
  intros [= <-]. now apply nth_error_nth.
Qed.


Lemma build_stages_last_dim a depths dims dp_rates len :
  forall start prev built,
    MambaOut.build_stages a depths dims dp_rates (seq start len) prev = Ok built ->
    snd built = match len with
                | O => prev
                | S l => nth (start + l) dims 0
                end.
Proof.
  induction len as [|len IH]; intros start prev built H.
  - now injection H as <-.
  - cbn [seq MambaOut.build_stages] in H.
    inv_bind H. rename v into dim. inv_bind H. inv_bind H. inv_bind H. inv_bind H.
    injection H as <-. cbn [snd]. rewrite (IH _ _ _ E3).
    destruct len as [|l].
    + rewrite Nat.add_0_r. symmetry. now apply py_index_nth.
    + f_equal. lia.
Qed.

(** ** The shape of the features *)



(** * Further properties of the module *)

(** ** Halving with rounding up *)

Lemma conv_out_ceil_half n : conv_out n 3 2 1 = ceil_div n 2.
Proof.
  unfold conv_out, ceil_div.
  replace (n + 2 - 1) with (n + 2 * 1 - 3 + 1 * 2) by lia.
  now rewrite Z.div_add by lia.
Qed.

Lemma ceil_div_pos n s : 0 < n -> 0 < s -> 0 < ceil_div n s.
Proof.
  intros Hn Hs. unfold ceil_div. apply Z.div_str_pos. lia.
Qed.

Lemma ceil_div_ceil_div n a b :
  0 < a -> 0 < b -> ceil_div (ceil_div n a) b = ceil_div n (a * b).
Proof.
  intros Ha Hb. unfold ceil_div.
  replace ((n + a - 1) / a + b - 1) with ((n + a * b - 1) / a).
  - apply Z.div_div; lia.
  - replace (n + a * b - 1) with (n + a - 1 + (b - 1) * a) by lia.
    rewrite Z.div_add by lia. lia.
Qed.

Lemma ceil_div_1 n : ceil_div n 1 = n.
Proof.
  unfold ceil_div. rewrite Z.div_1_r. lia.
Qed.

Lemma ceil_div_exact n s : 0 < s -> (s | n) -> ceil_div n s = n / s.
Proof.
  intros Hs [m ->]. unfold ceil_div. rewrite Z.div_mul by lia.
  replace (m * s + s - 1) with (s - 1 + m * s) by lia.
  rewrite Z.div_add by lia. rewrite Z.div_small by lia. lia.
Qed.

(** ** The downsampling modules on any input *)

Lemma shape_conv2d_mismatch cv b c h w :
  c <> in_channels cv -> shape_conv2d cv [b; c; h; w] = Err RuntimeError.
Proof.
  intros Hc. unfold shape_conv2d.
  apply Z.eqb_neq in Hc. now rewrite Hc.
Qed.



Lemma conv_3_2_1_shape cin cout b h w :
  0 < h -> 0 < w ->
  shape_conv2d (mkConv2d cin cout 3 2 1 1) [b; cin; h; w]
  = Ok [b; cout; ceil_div h 2; ceil_div w 2].
Proof.
  intros Hh Hw. rewrite shape_conv2d_4 by (fields; lia). fields.
  now rewrite !conv_out_ceil_half.
Qed.

Lemma Downsample_forward_any cin cout nl b h w c :
  0 < h -> 0 < w ->
  Downsample.forward (Downsample.mk (mkConv2d cin cout 3 2 1 1) (mkNorm nl cout))
    [b; h; w; c]
  = if c =? cin then Ok [b; ceil_div h 2; ceil_div w 2; cout]
    else Err RuntimeError.
Proof.
  intros Hh Hw. unfold Downsample.forward.
  cbn [permute conv2d norm_apply ShapeOps Downsample.conv Downsample.norm].
  rewrite shape_permute_channel_first. cbn [bind].
  destruct (c =? cin) eqn:Ec.
  - apply Z.eqb_eq in Ec. subst c.
    rewrite conv_3_2_1_shape by assumption. cbn [bind].
    rewrite shape_permute_channel_last. cbn [bind].
    now apply shape_norm_4.
  - apply Z.eqb_neq in Ec. now rewrite shape_conv2d_mismatch.
Qed.




(** ** The stem on any input *)

Lemma Stem_forward_any cin cout (mid_norm : bool) al nl b c h w :
  0 < h -> 0 < w ->
  Stem.forward
    (Stem.mk (mkConv2d cin (cout / 2) 3 2 1 1)
       (if mid_norm then Some (mkNorm nl (cout / 2)) else None)
       (mkAct al) (mkConv2d (cout / 2) cout 3 2 1 1) (mkNorm nl cout))
    [b; c; h; w]
  = if c =? cin then Ok [b; ceil_div h 4; ceil_div w 4; cout]
    else Err RuntimeError.
Proof.
  intros Hh Hw. unfold Stem.forward.
  cbn [permute conv2d norm_apply act_apply ShapeOps Stem.conv1 Stem.norm1
       Stem.act Stem.conv2 Stem.norm2].
  destruct (c =? cin) eqn:Ec.
  - apply Z.eqb_eq in Ec. subst c.
    rewrite conv_3_2_1_shape by assumption. cbn [bind].
    destruct mid_norm.
    + rewrite shape_permute_channel_last. cbn [bind].
      rewrite shape_norm_4 by reflexivity. cbn [bind].
      rewrite shape_permute_channel_first. cbn [bind].
      rewrite conv_3_2_1_shape by (apply ceil_div_pos; lia). cbn [bind].
      rewrite shape_permute_channel_last. cbn [bind].
      rewrite shape_norm_4 by reflexivity.
      rewrite !ceil_div_ceil_div by lia. reflexivity.
    + cbn [bind].
      rewrite conv_3_2_1_shape by (apply ceil_div_pos; lia). cbn [bind].
      rewrite shape_permute_channel_last. cbn [bind].
      rewrite shape_norm_4 by reflexivity.
      rewrite !ceil_div_ceil_div by lia. reflexivity.
  - apply Z.eqb_neq in Ec. now rewrite shape_conv2d_mismatch.
Qed.



(** ** When the forward pass of a block is defined *)







(** ** The classification head *)

Lemma shape_linear_2 l b c :
  in_features l = c -> shape_linear l [b; c] = Ok [b; out_features l].
Proof.
  intros <-. unfold shape_linear, shape_last, with_last. cbn [last removelast app].
  now rewrite Z.eqb_refl.
Qed.

Lemma shape_linear_2_mismatch l b c :
  c <> in_features l -> shape_linear l [b; c] = Err RuntimeError.
Proof.
  intros Hc. unfold shape_linear, shape_last. cbn [last].
  apply Z.eqb_neq in Hc. now rewrite Hc.
Qed.

Lemma shape_norm_2 n b c :
  normalized_shape n = c -> shape_norm n [b; c] = Ok [b; c].
Proof.
  intros <-. unfold shape_norm, shape_last. cbn [last].
  now rewrite Z.eqb_refl.
Qed.

Lemma MlpHead_init_inv dim nc al mr nl dr hd :
  MlpHead.__init__ dim nc al mr nl dr = Ok hd ->
  let hidden_features := py_int (q_times mr dim) in
  hd = MlpHead.mk (mkLinear dim hidden_features) (mkAct al)
         (mkNorm nl hidden_features) (mkLinear hidden_features nc) (mkDropout dr)
  /\ 0 <= dim /\ 0 <= hidden_features /\ 0 <= nc.
Proof.
  intros H hf. unfold MlpHead.__init__ in H. fold hf in H.
  inv_bind H. apply nn_Linear_inv in E as (-> & Hd & Hh).
  inv_bind H. apply norm_layer_new_inv in E as (-> & _).
  inv_bind H. apply nn_Linear_inv in E as (-> & _ & Hn).
  injection H as <-. repeat split; assumption.
Qed.

Lemma MlpHead_forward_any dim nc al mr nl dr hd b c :
  MlpHead.__init__ dim nc al mr nl dr = Ok hd ->
  MlpHead.forward hd [b; c]
  = if c =? dim then Ok [b; nc] else Err RuntimeError.
Proof.
  intros H. apply MlpHead_init_inv in H as (-> & _).
  unfold MlpHead.forward.
  cbn [linear act_apply norm_apply dropout_apply ShapeOps MlpHead.fc1
       MlpHead.act MlpHead.norm MlpHead.head_dropout MlpHead.fc2].
  destruct (c =? dim) eqn:Ec.
  - apply Z.eqb_eq in Ec. subst c.
    rewrite shape_linear_2 by reflexivity. cbn [bind]. fields.
    rewrite shape_norm_2 by reflexivity. cbn [bind].
    now rewrite shape_linear_2.
  - apply Z.eqb_neq in Ec. now rewrite shape_linear_2_mismatch.
Qed.



(** ** The blocks of a stage *)

Lemma mapM_Forall2 {A B : Type} (f : A -> result B) l bs :
  mapM f l = Ok bs -> Forall2 (fun a b => f a = Ok b) l bs.
Proof.
  revert bs. induction l as [|a l IH]; intros bs H.
  - injection H as <-. constructor.
  - cbn [mapM] in H. inv_bind H. inv_bind H. injection H as <-.
    constructor; [assumption | now apply IH].
Qed.

Lemma build_blocks_nth dim_out depth er k cr lsv nl al dp bs :
  MambaOutStage.build_blocks dim_out depth er k cr lsv nl al dp = Ok bs ->
  length bs = Z.to_nat depth
  /\ forall j blk,
       nth_error bs j = Some blk ->
       exists r,
         drop_path_at dp j = Some r
         /\ GatedConvBlock.__init__ dim_out er k cr lsv nl al r = Ok blk.
Proof.
  intros H. apply mapM_Forall2 in H. split.
  - apply Forall2_length in H. now rewrite length_seq in H.
  - intros j blk Hj.
    destruct (Forall2_nth_error_r _ _ _ H j blk Hj) as (i & Hi & Hf).
    apply nth_error_seq_Some in Hi. cbn in Hi. subst i.
    inv_bind Hf. exists v. split; [|assumption].
    destruct dp as [r|l]; cbn [drop_path_at].
    + now injection E as <-.
    + unfold py_index in E. destruct (nth_error l j); [|discriminate].
      now injection E as <-.
Qed.

(** X5: a constructed stage holds [depth] blocks ([0] for a negative
    depth), all of the stage's output width; the [j]-th block is built with
    the rate [drop_path[j]] when rates are given as a list and with the one
    rate otherwise, and holds a [DropPath] exactly when its rate is
    positive.  A list of rates shorter than [depth] cannot construct. *)
Theorem MambaOutStage_blocks dim dim_out depth er k cr ds lsv nl al dp st :
  MambaOutStage.__init__ dim dim_out depth er k cr ds lsv nl al dp = Ok st ->
  length (MambaOutStage.blocks st) = Z.to_nat depth
  /\ (forall l, dp = Sequence l -> (Z.to_nat depth <= length l)%nat)
  /\ forall j blk,
       nth_error (MambaOutStage.blocks st) j = Some blk ->
       exists r,
         drop_path_at dp j = Some r
         /\ GatedConvBlock.__init__ (py_or dim_out dim) er k cr lsv nl al r = Ok blk
         /\ normalized_shape (GatedConvBlock.norm blk) = py_or dim_out dim
         /\ GatedConvBlock.drop_path blk
            = (if Qgt_bool r 0 then Module_ (mkDropPath r) else Identity).
Proof.
  intros H. apply MambaOutStage_init_inv in H as (_ & _ & _ & Hb).
  apply build_blocks_nth in Hb as [Hlen Hnth]. split; [assumption|]. split.
  - intros l ->. destruct (Z.to_nat depth) as [|n] eqn:En; [lia|].
    destruct (nth_error (MambaOutStage.blocks st) n) as [blk|] eqn:Eb.
    + destruct (Hnth n blk Eb) as (r & Hr & _). cbn [drop_path_at] in Hr.
      assert (n < length l)%nat by (apply nth_error_Some; congruence). lia.
    + apply nth_error_None in Eb. lia.
  - intros j blk Hj. destruct (Hnth j blk Hj) as (r & Hr & Hi).
    exists r. split; [assumption|]. split; [assumption|].
    apply GatedConvBlock_init_inv in Hi as (-> & _). split; reflexivity.
Qed.

Lemma MambaOutStage_blocks_witness :
  exists st blk,
    MambaOutStage.__init__ 96 (Some 192) 2 expansion_ratio_default 7 1 true None
      LayerNorm GELU (Sequence [0; 1 # 10; 2 # 10])%Q = Ok st
    /\ length (MambaOutStage.blocks st) = 2%nat
    /\ nth_error (MambaOutStage.blocks st) 1 = Some blk
    /\ GatedConvBlock.drop_path blk = Module_ (mkDropPath (1 # 10)).
Proof.
  destruct (MambaOutStage.__init__ 96 (Some 192) 2 expansion_ratio_default 7 1 true
              None LayerNorm GELU (Sequence [0; 1 # 10; 2 # 10])%Q) as [st|e] eqn:E;
    [|vm_compute in E; discriminate].
  destruct (MambaOutStage_blocks _ _ _ _ _ _ _ _ _ _ _ st E) as (Hlen & _ & Hnth).
  destruct (nth_error (MambaOutStage.blocks st) 1) as [blk|] eqn:Eb.
  - exists st, blk. destruct (Hnth 1%nat blk Eb) as (r & Hr & _ & _ & Hdp).
    cbn in Hr. injection Hr as <-.
    split; [reflexivity|]. split; [exact Hlen|]. split; [exact Eb | exact Hdp].
  - apply nth_error_None in Eb. rewrite Hlen in Eb. cbn in Eb. lia.
Defined.

(** ** The stages of a network *)

Lemma build_stages_seq_nth a depths dims dp_rates len :
  forall start prev built,
    MambaOut.build_stages a depths dims dp_rates (seq start len) prev = Ok built ->
    length (fst built) = len
    /\ forall j st,
         nth_error (fst built) j = Some st ->
         exists dim depth rates,
           py_index dims (start + j) = Ok dim
           /\ py_index depths (start + j) = Ok depth
           /\ py_index dp_rates (start + j) = Ok rates
           /\ MambaOutStage.__init__
                (match j with
                 | O => prev
                 | S j' => nth (start + j') dims 0
                 end)
                (Some dim) depth expansion_ratio_default
                (MambaOut.Args.kernel_size a) (MambaOut.Args.conv_ratio a)
                (0 <? Z.of_nat (start + j)) (MambaOut.Args.ls_init_value a)
                (MambaOut.Args.norm_layer a) (MambaOut.Args.act_layer a)
                (Sequence rates) = Ok st.
Proof.
  induction len as [|len IH]; intros start prev built H.
  - injection H as <-. split; [reflexivity|]. intros [|j] st Hj; discriminate.
  - cbn [seq MambaOut.build_stages] in H.
    inv_bind H. rename v into dim. inv_bind H. rename v into depth.
    inv_bind H. rename v into rates. inv_bind H. rename v into st0.
    inv_bind H. rename v into rest. injection H as <-. cbn [fst].
    destruct (IH _ _ _ E3) as [Hlen Hnth]. split; [cbn [length]; lia|].
    intros [|j] st Hj; cbn [nth_error] in Hj.
    + injection Hj as <-. exists dim, depth, rates.
      rewrite Nat.add_0_r. repeat split; assumption.
    + destruct (Hnth j st Hj) as (d & dep & rs & H1 & H2 & H3 & H4).
      exists d, dep, rs.
      replace (start + S j)%nat with (S start + j)%nat by lia.
      repeat split; try assumption.
      destruct j as [|j'].
      * rewrite Nat.add_0_r. now rewrite (py_index_nth _ _ _ E).
      * replace (start + S j')%nat with (S start + j')%nat by lia. assumption.
Qed.

Lemma py_index_nth_error {A : Type} (l : list A) i x :
  py_index l i = Ok x -> nth_error l i = Some x.
Proof.
  unfold py_index. destruct (nth_error l i); [|discriminate]. now intros [= <-].
Qed.

Lemma py_or_nonzero d prev : d <> 0 -> py_or (Some d) prev = d.
Proof.
  intros Hd. destruct d; [contradiction | reflexivity..].
Qed.

Lemma stage_of_network a net i st :
  MambaOut.__init__ a = Ok net ->
  nth_error (MambaOut.stages net) i = Some st ->
  exists dim depth slices rates,
    nth_error (MambaOut.as_list (MambaOut.Args.dims a)) i = Some dim
    /\ nth_error (MambaOut.as_list (MambaOut.Args.depths a)) i = Some depth
    /\ MambaOut.dp_rates_of (MambaOut.Args.drop_path_rate a)
         (MambaOut.as_list (MambaOut.Args.depths a)) = Ok slices
    /\ nth_error slices i = Some rates
    /\ MambaOutStage.__init__
         (match i with
          | O => nth 0 (MambaOut.as_list (MambaOut.Args.dims a)) 0
          | S i' => nth i' (MambaOut.as_list (MambaOut.Args.dims a)) 0
          end)
         (Some dim) depth expansion_ratio_default
         (MambaOut.Args.kernel_size a) (MambaOut.Args.conv_ratio a)
         (0 <? Z.of_nat i) (MambaOut.Args.ls_init_value a)
         (MambaOut.Args.norm_layer a) (MambaOut.Args.act_layer a)
         (Sequence rates) = Ok st.
Proof.
  intros H Hi.
  apply MambaOut_init_inv in H as (d0 & slices & last & H0 & _ & Hdp & Hb & _).
  apply build_stages_seq_nth in Hb as [_ Hnth]. cbn [fst] in Hnth.
  destruct (Hnth i st Hi) as (dim & depth & rates & H1 & H2 & H3 & H4).
  cbn [Nat.add] in *.
  exists dim, depth, slices, rates.
  repeat split; try (now apply py_index_nth_error); try assumption.
  destruct i as [|i']; [|assumption].
  now rewrite (py_index_nth _ _ _ H0).
Qed.



(** ** The rates the blocks of a network are given *)

Lemma Qgt_bool_nonpos (q : Q) : (q <= 0)%Q -> Qgt_bool q 0 = false.
Proof.
  intros Hq. unfold Qgt_bool. apply Qle_bool_iff in Hq. now rewrite Hq.
Qed.

Lemma linspace_at_nonpos (R : Q) (n i : nat) :
  (R <= 0)%Q -> (2 <= n)%nat -> (linspace_at 0 R n i <= 0)%Q.
Proof.
  intros HR Hn. unfold linspace_at. rewrite Qplus_0_l.
  assert (Hs : ((R - 0) / inject_Z (Z.of_nat n - 1) <= 0)%Q).
  { apply Qle_shift_div_r.
    - change 0%Q with (inject_Z 0). rewrite <- Zlt_Qlt. lia.
    - rewrite Qmult_0_l. unfold Qminus. now rewrite Qplus_0_r. }
  assert (Hi : (0 <= inject_Z (Z.of_nat i))%Q).
  { change 0%Q with (inject_Z 0). rewrite <- Zle_Qle. lia. }
  setoid_replace 0%Q with (inject_Z (Z.of_nat i) * 0)%Q at 2 by ring.
  rewrite (Qmult_comm (inject_Z (Z.of_nat i))),
          (Qmult_comm (inject_Z (Z.of_nat i)) 0).
  now apply Qmult_le_compat_r.
Qed.

Lemma torch_linspace_nonpos (R : Q) (T : Z) flat :
  torch_linspace 0 R T = Ok flat -> (R <= 0)%Q -> Forall (fun r => (r <= 0)%Q) flat.
Proof.
  unfold torch_linspace. intros H HR.
  destruct (T <? 0); [discriminate|].
  destruct (T =? 1) eqn:E1.
  - injection H as <-. repeat constructor. apply Qle_refl.
  - apply Z.eqb_neq in E1. injection H as <-.
    apply Forall_forall. intros r Hr. apply in_map_iff in Hr as (i & <- & Hi).
    apply in_seq in Hi. apply linspace_at_nonpos; [assumption | lia].
Qed.


Lemma block_of_network a net i st j blk :
  MambaOut.__init__ a = Ok net ->
  nth_error (MambaOut.stages net) i = Some st ->
  nth_error (MambaOutStage.blocks st) j = Some blk ->
  exists flat slices rates r,
    torch_linspace 0 (MambaOut.Args.drop_path_rate a)
      (py_sum (MambaOut.as_list (MambaOut.Args.depths a))) = Ok flat
    /\ concat slices = flat
    /\ nth_error slices i = Some rates
    /\ nth_error rates j = Some r
    /\ GatedConvBlock.drop_path blk
       = (if Qgt_bool r 0 then Module_ (mkDropPath r) else Identity).
Proof.
  intros H Hi Hj.
  destruct (stage_of_network a net i st H Hi)
    as (dim & depth & slices & rates & _ & _ & Hdp & Hsl & Hst).
  apply MambaOutStage_init_inv in Hst as (_ & _ & _ & Hbl).
  apply build_blocks_nth in Hbl as [_ Hnth].
  destruct (Hnth j blk Hj) as (r & Hr & Hb). cbn [drop_path_at] in Hr.
  unfold MambaOut.dp_rates_of in Hdp. inv_bind Hdp. rename v into flat.
  apply torch_split_concat in Hdp as [Hc _].
  exists flat, slices, rates, r. repeat split; try assumption.
  now apply GatedConvBlock_init_inv in Hb as (-> & _).
Qed.



(** X8: a network constructed with a [drop_path_rate] that is not
    positive, the default [0.] included, holds no [DropPath] at all: every
    block of every stage has [nn.Identity()] in its place. *)
Theorem MambaOut_no_drop_path a net i st j blk :
  MambaOut.__init__ a = Ok net ->
  (MambaOut.Args.drop_path_rate a <= 0)%Q ->
  nth_error (MambaOut.stages net) i = Some st ->
  nth_error (MambaOutStage.blocks st) j = Some blk ->
  GatedConvBlock.drop_path blk = Identity.
Proof.
  intros H HR Hi Hj.
  destruct (block_of_network a net i st j blk H Hi Hj)
    as (flat & slices & rates & r & Hf & Hc & Hs & Hr & Hd).
  rewrite Hd.
  assert (Hin : In r flat).
  { rewrite <- Hc. apply in_concat. exists rates.
    split; eapply nth_error_In; eassumption. }
  pose proof (torch_linspace_nonpos _ _ _ Hf HR) as Hall.
  rewrite Forall_forall in Hall.
  now rewrite (Qgt_bool_nonpos r (Hall r Hin)).
Qed.

Lemma MambaOut_no_drop_path_witness :
  exists net st blk,
    MambaOut.__init__ mambaout_femto = Ok net
    /\ nth_error (MambaOut.stages net) 3 = Some st
    /\ nth_error (MambaOutStage.blocks st) 2 = Some blk
    /\ GatedConvBlock.drop_path blk = Identity.
Proof.
  destruct (MambaOut.__init__ mambaout_femto) as [net|e] eqn:E;
    [|vm_compute in E; discriminate].
  destruct (nth_error (MambaOut.stages net) 3) as [st|] eqn:Es;
    [|vm_compute in E; injection E as <-; vm_compute in Es; discriminate].
  destruct (nth_error (MambaOutStage.blocks st) 2) as [blk|] eqn:Eb;
    [|vm_compute in E; injection E as <-; vm_compute in Es; injection Es as <-;
      vm_compute in Eb; discriminate].
  exists net, st, blk.
  split; [reflexivity|]. split; [exact Es|]. split; [exact Eb|].
  apply (MambaOut_no_drop_path mambaout_femto net 3 st 2 blk E); try assumption.
  vm_compute. discriminate.
Defined.

(** ** The network on any input size *)

Lemma MambaOutStage_forward_any prev dim depth er k cr ds lsv nl al dp st b h w :
  MambaOutStage.__init__ prev (Some dim) depth er k cr ds lsv nl al dp = Ok st ->
  0 < dim ->
  Z.odd k = true ->
  GatedConvBlock.conv_channels_of cr dim <= GatedConvBlock.hidden_of er dim ->
  0 < h -> 0 < w ->
  MambaOutStage.forward st [b; h; w; prev]
  = Ok (if ds then [b; ceil_div h 2; ceil_div w 2; dim] else [b; h; w; dim]).
Proof.
  intros H Hdim Hodd Hle Hh Hw.
  apply MambaOutStage_init_inv in H as (Hg & Hd & Heq & Hbs).
  rewrite (py_or_nonzero dim prev ltac:(lia)) in *.
  apply build_blocks_Forall in Hbs.
  unfold MambaOutStage.forward, MambaOutStage.forward_in.
  rewrite Hg, Hd. cbn [andb]. destruct ds.
  - cbn [DownsampleModule_forward].
    rewrite Downsample_forward_any by assumption.
    rewrite Z.eqb_refl. cbn [bind].
    apply (blocks_forward_shape dim er k cr lsv nl al); try assumption;
      apply ceil_div_pos; lia.
  - rewrite (Heq eq_refl). cbn [DownsampleModule_forward bind].
    now apply (blocks_forward_shape dim er k cr lsv nl al).
Qed.

Lemma build_stages_forward_any a depths dims dp_rates len :
  Forall (width_ok (MambaOut.Args.conv_ratio a)) dims ->
  Z.odd (MambaOut.Args.kernel_size a) = true ->
  forall start prev built b h w,
    (1 <= start)%nat ->
    MambaOut.build_stages a depths dims dp_rates (seq start len) prev = Ok built ->
    0 < h -> 0 < w ->
    Sequential_forward MambaOutStage.forward (fst built) [b; h; w; prev]
    = Ok [b; ceil_div h (2 ^ Z.of_nat len); ceil_div w (2 ^ Z.of_nat len);
          snd built].
Proof.
  intros Hdims Hodd. induction len as [|len IH];
    intros start prev built b h w Hstart H Hh Hw.
  - injection H as <-. cbn [fst snd Sequential_forward Z.of_nat].
    now rewrite Z.pow_0_r, !ceil_div_1.
  - cbn [seq MambaOut.build_stages] in H.
    inv_bind H. rename v into dim. inv_bind H. inv_bind H.
    inv_bind H. rename v into st. inv_bind H. rename v into rest.
    injection H as <-. cbn [fst snd Sequential_forward].
    destruct (py_index_Forall _ _ _ _ Hdims E) as [Hdim Hle].
    replace (0 <? Z.of_nat start) with true in E2 by (symmetry; apply Z.ltb_lt; lia).
    rewrite (MambaOutStage_forward_any _ _ _ _ _ _ _ _ _ _ _ _ b h w E2 Hdim Hodd Hle)
      by assumption.
    cbn [bind].
    rewrite (IH (S start) dim rest b _ _ ltac:(lia) E3)
      by (apply ceil_div_pos; lia).
    assert (Hpow : 0 < 2 ^ Z.of_nat len) by (apply Z.pow_pos_nonneg; lia).
    rewrite !ceil_div_ceil_div by lia.
    rewrite Nat2Z.inj_succ, Z.pow_succ_r by lia. reflexivity.
Qed.

Lemma forward_features_any a net b c h w :
  MambaOut.__init__ a = Ok net ->
  let dims := MambaOut.as_list (MambaOut.Args.dims a) in
  let n := length (MambaOut.as_list (MambaOut.Args.depths a)) in
  (1 <= n)%nat ->
  Forall (width_ok (MambaOut.Args.conv_ratio a)) dims ->
  Z.odd (MambaOut.Args.kernel_size a) = true ->
  0 < h -> 0 < w ->
  MambaOut.forward_features net [b; c; h; w]
  = if c =? MambaOut.Args.in_chans a
    then Ok [b; ceil_div h (cumulative_stride n); ceil_div w (cumulative_stride n);
             nth (n - 1) dims 0]
    else Err RuntimeError.
Proof.
  intros H dims n Hn Hdims Hodd Hh Hw.
  apply MambaOut_init_inv in H as (dims0 & dp & last_dim & H0 & Hstem & _ & Hb & _).
  fold n in Hb. fold dims in H0, Hb.
  apply Stem_init_inv in Hstem.
  unfold MambaOut.forward_features. rewrite Hstem.
  rewrite (Stem_forward_any _ _ Stem.mid_norm_default) by assumption.
  destruct (c =? MambaOut.Args.in_chans a); [|reflexivity]. cbn [bind].
  destruct n as [|m]; [lia|]. clear Hn.
  unfold cumulative_stride.
  replace (Z.of_nat (S m) - 1) with (Z.of_nat m) by lia.
  replace (S m - 1)%nat with m by lia.
  assert (Hpow : 0 < 2 ^ Z.of_nat m) by (apply Z.pow_pos_nonneg; lia).
  cbn [seq MambaOut.build_stages] in Hb.
  inv_bind Hb. rename v into dim. rewrite H0 in E. injection E as <-.
  inv_bind Hb. inv_bind Hb. inv_bind Hb. rename v into st.
  inv_bind Hb. rename v into rest. injection Hb as Hsts Hlast.
  destruct (py_index_Forall _ _ _ _ Hdims H0) as [Hdim Hle].
  rewrite <- Hsts. cbn [Sequential_forward].
  rewrite (MambaOutStage_forward_any _ _ _ _ _ _ _ _ _ _ _ _ b _ _ E1 Hdim Hodd Hle)
    by (apply ceil_div_pos; lia).
  cbn [bind Z.ltb Z.of_nat Z.compare].
  rewrite (build_stages_forward_any a _ dims _ m Hdims Hodd 1%nat dims0 rest
             b _ _ ltac:(lia) E2)
    by (apply ceil_div_pos; lia).
  rewrite !ceil_div_ceil_div by lia.
  assert (Hl : snd rest = nth m dims 0).
  { rewrite (build_stages_last_dim _ _ _ _ _ _ _ _ E2).
    destruct m as [|l]; [symmetry; now apply py_index_nth | reflexivity]. }
  now rewrite Hl.
Qed.



(** ** From image to logits *)

Lemma MambaOut_init_head_inv a net :
  MambaOut.__init__ a = Ok net ->
  let depths := MambaOut.as_list (MambaOut.Args.depths a) in
  let dims := MambaOut.as_list (MambaOut.Args.dims a) in
  exists dims0 dp_rates last_dim,
    py_index dims 0 = Ok dims0
    /\ MambaOut.build_stages a depths dims dp_rates (seq 0 (length depths)) dims0
       = Ok (MambaOut.stages net, last_dim)
    /\ MambaOut.norm net = mkNorm (MambaOut.Args.output_norm a) last_dim
    /\ MlpHead.__init__ last_dim (MambaOut.Args.num_classes a) GELU (4 # 1)
         LayerNorm (MambaOut.Args.drop_rate a) = Ok (MambaOut.head net)
    /\ MambaOut.num_classes net = MambaOut.Args.num_classes a.
Proof.
  intros H depths dims. unfold MambaOut.__init__ in H. fold depths dims in H.
  apply bind_Ok in H as (dims0 & Hd0 & H).
  apply bind_Ok in H as (stem & Hstem & H).
  apply bind_Ok in H as (dp_rates & Hdp & H).
  apply bind_Ok in H as ([sts last_dim] & Hb & H). cbn [fst snd] in H.
  apply bind_Ok in H as (nrm & Hn & H).
  apply norm_layer_new_inv in Hn as (-> & _).
  apply bind_Ok in H as (hd & Hh & H). injection H as <-.
  exists dims0, dp_rates, last_dim.
  cbn [MambaOut.stages MambaOut.norm MambaOut.head MambaOut.num_classes].
  repeat split; assumption.
Qed.

Lemma forward_head_shape a net b h w :
  MambaOut.__init__ a = Ok net ->
  let dims := MambaOut.as_list (MambaOut.Args.dims a) in
  let n := length (MambaOut.as_list (MambaOut.Args.depths a)) in
  (1 <= n)%nat ->
  MambaOut.forward_head net [b; h; w; nth (n - 1) dims 0]
  = Ok [b; MambaOut.Args.num_classes a].
Proof.
  intros H dims n Hn.
  apply MambaOut_init_head_inv in H
    as (dims0 & dp & last_dim & H0 & Hb & Hnorm & Hhead & _).
  fold n in Hb. fold dims in H0, Hb.
  assert (Hl : last_dim = nth (n - 1) dims 0).
  { pose proof (build_stages_last_dim _ _ _ _ _ _ _ _ Hb) as Hl. cbn [snd] in Hl.
    destruct n as [|m]; [lia|]. rewrite Hl. f_equal. lia. }
  rewrite <- Hl. unfold MambaOut.forward_head.
  cbn [mean_1_2 norm_apply ShapeOps shape_mean_1_2 bind].
  rewrite Hnorm, shape_norm_2 by reflexivity. cbn [bind].
  rewrite (MlpHead_forward_any _ _ _ _ _ _ _ b last_dim Hhead).
  now rewrite Z.eqb_refl.
Qed.



(** ** What construction requires *)

Lemma dp_rates_of_inv R depths slices :
  MambaOut.dp_rates_of R depths = Ok slices ->
  forallb (fun s => 0 <=? s) depths = true
  /\ map (fun s => Z.of_nat (length s)) slices = depths.
Proof.
  intros H. unfold MambaOut.dp_rates_of in H. inv_bind H.
  pose proof (torch_split_concat _ _ _ H) as [_ Hl]. split; [|assumption].
  unfold torch_split in H.
  destruct (forallb (fun s => 0 <=? s) depths); [reflexivity | discriminate].
Qed.

(** X11: what every constructed network satisfies, so that arguments
    violating any of it make [MambaOut(...)] raise: [dims] has an entry for
    the stem and one for every entry of [depths]; no depth is negative;
    [in_chans] and [num_classes] are not negative; and every stage that has
    a block and a non-zero width has a non-negative kernel size and at
    least one convolved channel, [int(conv_ratio * dims[i]) >= 1]. *)
Theorem MambaOut_init_requires a net :
  MambaOut.__init__ a = Ok net ->
  let dims := MambaOut.as_list (MambaOut.Args.dims a) in
  let depths := MambaOut.as_list (MambaOut.Args.depths a) in
  (1 <= length dims)%nat
  /\ (length depths <= length dims)%nat
  /\ Forall (fun d => 0 <= d) depths
  /\ 0 <= MambaOut.Args.in_chans a
  /\ 0 <= MambaOut.Args.num_classes a
  /\ forall i dim depth,
       nth_error dims i = Some dim -> nth_error depths i = Some depth ->
       dim <> 0 -> 0 < depth ->
       0 <= MambaOut.Args.kernel_size a
       /\ 1 <= GatedConvBlock.conv_channels_of (MambaOut.Args.conv_ratio a) dim.
Proof.
  intros H dims depths.
  pose proof (MambaOut_init_inv a net H)
    as (dims0 & slices & last & H0 & Hstem & Hdp & Hb & _).
  fold dims depths in H0, Hdp, Hb.
  pose proof (build_stages_seq_nth _ _ _ _ _ _ _ _ Hb) as [Hlen Hnth].
  cbn [fst Nat.add] in Hlen, Hnth.
  split.
  { apply py_index_nth_error in H0.
    assert (0 < length dims)%nat by (apply nth_error_Some; congruence). lia. }
  split.
  { destruct (length depths) as [|m] eqn:Em; [lia|].
    destruct (nth_error (MambaOut.stages net) m) as [st|] eqn:Es.
    - destruct (Hnth m st Es) as (dim & _ & _ & Hd & _).
      apply py_index_nth_error in Hd.
      assert (m < length dims)%nat by (apply nth_error_Some; congruence). lia.
    - apply nth_error_None in Es. lia. }
  split.
  { apply dp_rates_of_inv in Hdp as [Hpos _].
    apply Forall_forall. intros d Hd.
    rewrite forallb_forall in Hpos. apply Z.leb_le. now apply Hpos. }
  split.
  { unfold Stem.__init__ in Hstem. inv_bind Hstem.
    now apply nn_Conv2d_inv in E as (_ & _ & Hin & _). }
  split.
  { apply MambaOut_init_head_inv in H as (_ & _ & ld & _ & _ & _ & Hh & _).
    now apply MlpHead_init_inv in Hh as (_ & _ & _ & Hn). }
  intros i dim depth Hdim Hdepth Hnz Hpos.
  assert (Hi : (i < length (MambaOut.stages net))%nat).
  { rewrite Hlen. apply nth_error_Some. congruence. }
  destruct (nth_error (MambaOut.stages net) i) as [st|] eqn:Es;
    [|apply nth_error_None in Es; lia].
  destruct (stage_of_network a net i st H Es)
    as (dim' & depth' & _ & rates & H1 & H2 & _ & _ & Hst).
  fold dims in H1. fold depths in H2.
  rewrite Hdim in H1. injection H1 as <-. rewrite Hdepth in H2. injection H2 as <-.
  apply MambaOutStage_init_inv in Hst as (_ & _ & _ & Hbl).
  rewrite (py_or_nonzero _ _ Hnz) in Hbl.
  pose proof (build_blocks_nth _ _ _ _ _ _ _ _ _ _ Hbl) as [Hbn Hbnth].
  destruct (nth_error (MambaOutStage.blocks st) 0) as [blk|] eqn:Eb;
    [|apply nth_error_None in Eb; lia].
  destruct (Hbnth 0%nat blk Eb) as (r & _ & Hr).
  apply GatedConvBlock_init_inv in Hr as (_ & _ & _ & Hc & Hk). lia.
Qed.

Lemma MambaOut_init_requires_witness :
  exists net,
    MambaOut.__init__ mambaout_kobe = Ok net
    /\ Forall (fun d => 0 <= d) [3; 3; 15; 3]
    /\ 1 <= GatedConvBlock.conv_channels_of 1 192.
Proof.
  destruct (MambaOut.__init__ mambaout_kobe) as [net|e] eqn:E;
    [|vm_compute in E; discriminate].
  exists net.
  destruct (MambaOut_init_requires mambaout_kobe net E)
    as (_ & _ & H3 & _ & _ & H6).
  split; [reflexivity|]. split; [exact H3|].
  apply (H6 2%nat 192 15 eq_refl eq_refl); lia.
Defined.

(** ** What suffices for construction *)


Lemma q_times_nonneg (ratio : Q) (dim : Z) :
  (0 <= ratio)%Q -> 0 <= dim -> (0 <= q_times ratio dim)%Q.
Proof.
  intros Hr Hd. unfold q_times. apply Qmult_le_0_compat; [assumption|].
  change 0%Q with (inject_Z 0). now rewrite <- Zle_Qle.
Qed.












(** ** The number of blocks *)

Lemma skipn_nth_error {A : Type} (l : list A) n x :
  nth_error l n = Some x -> skipn n l = x :: skipn (S n) l.
Proof.
  revert l. induction n as [|n IH]; intros [|y l] H; try discriminate.
  - now injection H as <-.
  - cbn [nth_error] in H. cbn [skipn]. now apply IH.
Qed.

Lemma build_stages_block_count a depths dims dp_rates len :
  forall start prev built,
    MambaOut.build_stages a depths dims dp_rates (seq start len) prev = Ok built ->
    map (fun st => length (MambaOutStage.blocks st)) (fst built)
    = map Z.to_nat (firstn len (skipn start depths)).
Proof.
  induction len as [|len IH]; intros start prev built H.
  - now injection H as <-.
  - cbn [seq MambaOut.build_stages] in H.
    apply bind_Ok in H as (dim & Hdim & H).
    apply bind_Ok in H as (depth & Hdepth & H).
    apply bind_Ok in H as (rates & Hrates & H).
    apply bind_Ok in H as (st & Hst & H).
    apply bind_Ok in H as (rest & Hrest & H). injection H as <-.
    apply py_index_nth_error in Hdepth.
    rewrite (skipn_nth_error _ _ _ Hdepth). cbn [fst firstn map].
    rewrite (IH _ _ _ Hrest). f_equal.
    apply MambaOutStage_init_inv in Hst as (_ & _ & _ & Hbl).
    now apply build_blocks_nth in Hbl as [Hlen _].
Qed.

Lemma length_concat_map {A B : Type} (f : A -> list B) l :
  length (concat (map f l)) = fold_right Nat.add 0%nat (map (fun x => length (f x)) l).
Proof.
  induction l as [|x l IH]; cbn [map concat fold_right]; [reflexivity|].
  now rewrite length_app, IH.
Qed.

Lemma sum_to_nat depths :
  Forall (fun d => 0 <= d) depths ->
  Z.of_nat (fold_right Nat.add 0%nat (map Z.to_nat depths)) = py_sum depths.
Proof.
  induction 1 as [|d depths Hd _ IH]; cbn [map fold_right py_sum]; [reflexivity|].
  fold (py_sum depths). lia.
Qed.

(** X13: a constructed network holds [sum(depths)] blocks in all, stage
    [i] holding [depths[i]] of them, which is also the number of rates of
    its drop-path schedule. *)
Theorem MambaOut_block_count a net :
  MambaOut.__init__ a = Ok net ->
  let depths := MambaOut.as_list (MambaOut.Args.depths a) in
  map (fun st => Z.of_nat (length (MambaOutStage.blocks st))) (MambaOut.stages net)
  = depths
  /\ Z.of_nat (length (concat (map MambaOutStage.blocks (MambaOut.stages net))))
     = py_sum depths
  /\ exists flat,
       torch_linspace 0 (MambaOut.Args.drop_path_rate a) (py_sum depths) = Ok flat
       /\ length flat
          = length (concat (map MambaOutStage.blocks (MambaOut.stages net))).
Proof.
  intros H depths.
  pose proof (MambaOut_init_inv a net H)
    as (dims0 & slices & last & _ & _ & Hdp & Hb & _).
  fold depths in Hdp, Hb.
  apply build_stages_block_count in Hb. cbn [fst skipn] in Hb.
  rewrite firstn_all in Hb.
  pose proof (dp_rates_of_inv _ _ _ Hdp) as [Hpos _].
  assert (Hnn : Forall (fun d => 0 <= d) depths).
  { apply Forall_forall. intros d Hd. rewrite forallb_forall in Hpos.
    apply Z.leb_le. now apply Hpos. }
  assert (Hcount : Z.of_nat (length (concat (map MambaOutStage.blocks
                                               (MambaOut.stages net))))
                   = py_sum depths).
  { rewrite length_concat_map, Hb. now apply sum_to_nat. }
  split.
  { rewrite <- (map_map (fun st => length (MambaOutStage.blocks st)) Z.of_nat), Hb.
    rewrite map_map. rewrite <- (map_id depths) at 2.
    apply map_ext_in. intros d Hd. rewrite Forall_forall in Hnn.
    specialize (Hnn d Hd). lia. }
  split; [assumption|].
  unfold MambaOut.dp_rates_of in Hdp.
  apply bind_Ok in Hdp as (flat & Hf & Hs).
  exists flat. split; [assumption|].
  unfold torch_split in Hs.
  destruct (forallb (fun s => 0 <=? s) depths); [|discriminate].
  destruct (py_sum depths =? Z.of_nat (length flat)) eqn:E; [|discriminate].
  apply Z.eqb_eq in E. lia.
Qed.

Lemma MambaOut_block_count_witness :
  exists net,
    MambaOut.__init__ mambaout_kobe = Ok net
    /\ length (concat (map MambaOutStage.blocks (MambaOut.stages net))) = 24%nat.
Proof.
  destruct (MambaOut.__init__ mambaout_kobe) as [net|e] eqn:E;
    [|vm_compute in E; discriminate].
  exists net. split; [reflexivity|].
  destruct (MambaOut_block_count mambaout_kobe net E) as (_ & H & _).
  cbn in H. lia.
Defined.

(** ** The registered models *)

Lemma preset_classifies depths dims lsv net b h w :
  MambaOut.__init__ (preset depths dims lsv) = Ok net ->
  (1 <= length depths)%nat ->
  Forall (width_ok 1) dims ->
  0 < h -> 0 < w ->
  MambaOut.forward_features net [b; 3; h; w]
  = Ok [b; ceil_div h (cumulative_stride (length depths));
        ceil_div w (cumulative_stride (length depths));
        nth (length depths - 1) dims 0]
  /\ MambaOut.forward net [b; 3; h; w] = Ok [b; 1000].
Proof.
  intros H Hn Hdims Hh Hw.
  pose proof (forward_features_any (preset depths dims lsv) net b 3 h w H
                Hn Hdims eq_refl Hh Hw) as Hf.
  cbn [preset MambaOut.Args.in_chans MambaOut.Args.dims MambaOut.Args.depths
       MambaOut.as_list] in Hf.
  rewrite Z.eqb_refl in Hf. split; [exact Hf|].
  unfold MambaOut.forward. rewrite Hf. cbn [bind].
  exact (forward_head_shape (preset depths dims lsv) net b _ _ H Hn).
Qed.

(** X14: each of the seven registered models constructs, has four
    stages with cumulative stride 32, and maps every 3-channel image with
    positive extents to 1000 logits; its feature map is
    [(B, ceil(H/32), ceil(W/32), C)] with [C] its last width. *)
Theorem registered_models_classify a :
  In a registered_models ->
  exists net,
    MambaOut.__init__ a = Ok net
    /\ length (MambaOut.stages net) = 4%nat
    /\ forall b h w, 0 < h -> 0 < w ->
         MambaOut.forward_features net [b; 3; h; w]
         = Ok [b; ceil_div h 32; ceil_div w 32;
               nth 3 (MambaOut.as_list (MambaOut.Args.dims a)) 0]
         /\ MambaOut.forward net [b; 3; h; w] = Ok [b; 1000].
Proof.
  intros Ha.
  assert (Hcase :
    exists depths dims lsv,
      a = preset depths dims lsv
      /\ length depths = 4%nat
      /\ Forall (width_ok 1) dims
      /\ is_ok (MambaOut.__init__ a) = true).
  { unfold registered_models in Ha. cbn [In] in Ha.
    destruct Ha as [<-|[<-|[<-|[<-|[<-|[<-|[<-|[]]]]]]]];
      eexists; eexists; eexists;
      (split; [reflexivity|]); (split; [reflexivity|]);
      (split; [repeat constructor; vm_compute; discriminate
              | vm_compute; reflexivity]). }
  destruct Hcase as (depths & dims & lsv & -> & Hlen & Hdims & Hok).
  destruct (MambaOut.__init__ (preset depths dims lsv)) as [net|e] eqn:E;
    [|discriminate].
  exists net. split; [reflexivity|]. split.
  - pose proof (MambaOut_init_inv _ _ E) as (d0 & sl & last & _ & _ & _ & Hb & _).
    apply build_stages_seq_nth in Hb as [Hl _]. cbn [fst] in Hl.
    rewrite Hl. exact Hlen.
  - intros b h w Hh Hw.
    destruct (preset_classifies depths dims lsv net b h w E ltac:(lia) Hdims Hh Hw)
      as [Hf Hl].
    rewrite Hlen in Hf. split; [exact Hf | exact Hl].
Qed.

Lemma registered_models_classify_witness :
  exists net,
    MambaOut.__init__ mambaout_base_rw = Ok net
    /\ MambaOut.forward_features net [1; 3; 224; 224] = Ok [1; 7; 7; 768]
    /\ MambaOut.forward net [1; 3; 224; 224] = Ok [1; 1000].
Proof.
  destruct (registered_models_classify mambaout_base_rw
              ltac:(unfold registered_models; cbn [In]; tauto))
    as (net & Hi & _ & Hf).
  exists net. split; [exact Hi|].
  exact (Hf 1 224 224 ltac:(lia) ltac:(lia)).
Defined.

(** ** The default ratios *)

Lemma py_int_ratio (p : Z) (q : positive) (dim : Z) :
  0 <= p -> 0 <= dim -> py_int (q_times (p # q) dim) = p * dim / Z.pos q.
Proof.
  intros Hp Hd. rewrite py_int_nonneg.
  - unfold q_times, Qfloor, Qmult, inject_Z. cbn [Qnum Qden].
    now rewrite Pos.mul_1_r.
  - apply q_times_nonneg; [|assumption]. unfold Qle. cbn. lia.
Qed.

(** X15: widths of the blocks a network builds.  With the default
    [conv_ratio = 1.0] a block of width [dim >= 1] convolves all [dim]
    channels, expands to [hidden = floor(8 dim / 3)] and passes
    [floor(5 dim / 3)] channels through unchanged; and for every
    [conv_ratio] up to [8/3] a positive width has
    [conv_channels <= hidden], so its blocks run. *)
Theorem default_ratio_widths (dim : Z) :
  1 <= dim ->
  GatedConvBlock.conv_channels_of 1 dim = dim
  /\ GatedConvBlock.hidden_of expansion_ratio_default dim = 8 * dim / 3
  /\ GatedConvBlock.hidden_of expansion_ratio_default dim
     - GatedConvBlock.conv_channels_of 1 dim = 5 * dim / 3
  /\ width_ok 1 dim
  /\ forall cr : Q, (cr <= 8 # 3)%Q ->
       GatedConvBlock.conv_channels_of cr dim
       <= GatedConvBlock.hidden_of expansion_ratio_default dim.
Proof.
  intros Hd.
  assert (Hc : GatedConvBlock.conv_channels_of 1 dim = dim).
  { unfold GatedConvBlock.conv_channels_of.
    rewrite (py_int_ratio 1 1 dim) by lia. rewrite Z.div_1_r. lia. }
  assert (Hh : GatedConvBlock.hidden_of expansion_ratio_default dim = 8 * dim / 3).
  { unfold GatedConvBlock.hidden_of, expansion_ratio_default.
    now rewrite (py_int_ratio 8 3 dim) by lia. }
  assert (Hi : 8 * dim / 3 - dim = 5 * dim / 3).
  { replace (8 * dim) with (5 * dim + dim * 3) by lia.
    rewrite Z.div_add by lia. lia. }
  split; [assumption|]. split; [assumption|]. split; [now rewrite Hc, Hh|].
  split.
  - unfold width_ok. split; [lia|]. rewrite Hc, Hh.
    assert (0 <= 5 * dim / 3) by (apply Z.div_pos; lia). lia.
  - intros cr Hcr. apply conv_channels_le_hidden; [lia | assumption].
Qed.

Lemma default_ratio_widths_witness :
  GatedConvBlock.hidden_of expansion_ratio_default 96 = 256
  /\ GatedConvBlock.hidden_of expansion_ratio_default 96
     - GatedConvBlock.conv_channels_of 1 96 = 160
  /\ width_ok 1 96.
Proof.
  destruct (default_ratio_widths 96 ltac:(lia)) as (_ & H2 & H3 & H4 & _).
  split; [exact H2|]. split; [exact H3 | exact H4].
Defined.

(** ** Widths that are never read *)

Lemma py_index_app1 {A : Type} (l extra : list A) i :
  (i < length l)%nat -> py_index (l ++ extra) i = py_index l i.
Proof.
  intros Hi. unfold py_index. now rewrite nth_error_app1.
Qed.

Lemma build_stages_extra_dims a depths dims extra dp_rates len :
  forall start prev,
    (start + len <= length dims)%nat ->
    MambaOut.build_stages (with_dims a (Sequence (dims ++ extra))) depths
      (dims ++ extra) dp_rates (seq start len) prev
    = MambaOut.build_stages (with_dims a (Sequence dims)) depths dims dp_rates
        (seq start len) prev.
Proof.
  induction len as [|len IH]; intros start prev Hlen; [reflexivity|].
  cbn [seq MambaOut.build_stages].
  rewrite py_index_app1 by lia.
  destruct (py_index dims start) as [dim|]; [|reflexivity]. cbn [bind].
  destruct (py_index depths start) as [depth|]; [|reflexivity]. cbn [bind].
  destruct (py_index dp_rates start) as [rates|]; [|reflexivity]. cbn [bind].
  cbn [with_dims MambaOut.Args.kernel_size MambaOut.Args.conv_ratio
       MambaOut.Args.ls_init_value MambaOut.Args.norm_layer
       MambaOut.Args.act_layer].
  destruct (MambaOutStage.__init__ _ _ _ _ _ _ _ _ _ _ _) as [st|]; [|reflexivity].
  cbn [bind]. rewrite IH by lia. reflexivity.
Qed.

(** X16: the constructor never compares the lengths of [depths] and
    [dims]: when [dims] has an entry for every stage, any further widths
    appended to it are not read, and the constructed network (or the error
    raised) is the same. *)
Theorem MambaOut_extra_dims_ignored a dims extra :
  (1 <= length dims)%nat ->
  (length (MambaOut.as_list (MambaOut.Args.depths a)) <= length dims)%nat ->
  MambaOut.__init__ (with_dims a (Sequence (dims ++ extra)))
  = MambaOut.__init__ (with_dims a (Sequence dims)).
Proof.
  intros Hn Hlen. unfold MambaOut.__init__.
  cbn [with_dims MambaOut.Args.depths MambaOut.Args.dims MambaOut.as_list
       MambaOut.Args.in_chans MambaOut.Args.act_layer MambaOut.Args.norm_layer
       MambaOut.Args.drop_path_rate MambaOut.Args.output_norm
       MambaOut.Args.num_classes MambaOut.Args.drop_rate].
  rewrite py_index_app1 by lia.
  destruct (py_index dims 0) as [d0|]; [|reflexivity]. cbn [bind].
  destruct (Stem.__init__ _ _ _ _ _) as [stem|]; [|reflexivity]. cbn [bind].
  destruct (MambaOut.dp_rates_of _ _) as [slices|]; [|reflexivity]. cbn [bind].
  pose proof (build_stages_extra_dims a
                (MambaOut.as_list (MambaOut.Args.depths a)) dims extra slices
                (length (MambaOut.as_list (MambaOut.Args.depths a))) 0%nat d0
                ltac:(lia)) as Hb.
  cbn [with_dims] in Hb. rewrite Hb. reflexivity.
Qed.

Lemma MambaOut_extra_dims_ignored_witness :
  MambaOut.__init__
    (with_dims mambaout_tiny (Sequence ([96; 192; 384; 576] ++ [1024; -5])))
  = MambaOut.__init__ mambaout_tiny
  /\ is_ok (MambaOut.__init__ mambaout_tiny) = true.
Proof.
  split; [|vm_compute; reflexivity].
  exact (MambaOut_extra_dims_ignored mambaout_tiny [96; 192; 384; 576] [1024; -5]
           ltac:(cbn; lia) ltac:(cbn; lia)).
Defined.
